(** * Rice marketplace (app.py): route handlers over an explicit store

    The application is a set of Flask route handlers over three tables
    (farmer, rice_product, user) and an uploads directory.  Each handler is
    embedded as a pure function from the store, the request's session cookie
    and the request data to an outcome: the new store, the new session, the
    messages flashed during the request and the response.

    A Python [str] is held as the bytes of its UTF-8 encoding.  Table rows
    are kept in insertion order, as [query.all()] and
    [filter_by(...).first()] observe them.  Columns declared
    [nullable=False] carry a value, nullable ones an [option]; Python values
    handed to a constructor may be [None], and an insert of [None] into a
    non-nullable column fails as the storage layer does.  A [Float] column
    holds a binary64 number, an [Integer] column what SQLite's integer
    affinity makes of the bound value. *)

From Stdlib Require Import Ascii String ZArith NArith SpecFloat.
From stdpp Require Import base option list strings gmap.

Local Open Scope string_scope.

(** ** Python and WTForms primitives *)

Module Py.

(** The code points below U+0080 for which [str.isspace] holds; each is
    one byte. *)
Definition isspace (c : ascii) : bool :=
  let n := nat_of_ascii c in
  ((9 <=? n)%nat && (n <=? 13)%nat) || ((28 <=? n)%nat && (n <=? 32)%nat).

(** The two-byte code points for which [str.isspace] holds: U+0085 and
    U+00A0. *)
Definition isspace2 (c1 c2 : ascii) : bool :=
  (nat_of_ascii c1 =? 194)%nat
  && ((nat_of_ascii c2 =? 133)%nat || (nat_of_ascii c2 =? 160)%nat).

(** The three-byte code points for which [str.isspace] holds: U+1680,
    U+2000 to U+200A, U+2028, U+2029, U+202F, U+205F and U+3000. *)
Definition isspace3 (c1 c2 c3 : ascii) : bool :=
  let n1 := nat_of_ascii c1 in
  let n2 := nat_of_ascii c2 in
  let n3 := nat_of_ascii c3 in
  ((n1 =? 225)%nat && (n2 =? 154)%nat && (n3 =? 128)%nat)
  || ((n1 =? 226)%nat && (n2 =? 128)%nat
      && (((128 <=? n3)%nat && (n3 <=? 138)%nat)
          || (n3 =? 168)%nat || (n3 =? 169)%nat || (n3 =? 175)%nat))
  || ((n1 =? 226)%nat && (n2 =? 129)%nat && (n3 =? 159)%nat)
  || ((n1 =? 227)%nat && (n2 =? 128)%nat && (n3 =? 128)%nat).

(** [s.lstrip()]: drops the leading whitespace code points. *)
Fixpoint lstrip (s : string) : string :=
  match s with
  | EmptyString => EmptyString
  | String c1 s1 =>
      if isspace c1 then lstrip s1
      else
        match s1 with
        | EmptyString => s
        | String c2 s2 =>
            if isspace2 c1 c2 then lstrip s2
            else
              match s2 with
              | EmptyString => s
              | String c3 s3 => if isspace3 c1 c2 c3 then lstrip s3 else s
              end
        end
  end.

(** [lstrip] on the reversed bytes: a code point's bytes come last byte
    first. *)
Fixpoint lstrip_reversed (s : string) : string :=
  match s with
  | EmptyString => EmptyString
  | String c1 s1 =>
      if isspace c1 then lstrip_reversed s1
      else
        match s1 with
        | EmptyString => s
        | String c2 s2 =>
            if isspace2 c2 c1 then lstrip_reversed s2
            else
              match s2 with
              | EmptyString => s
              | String c3 s3 =>
                  if isspace3 c3 c2 c1 then lstrip_reversed s3 else s
              end
        end
  end.

(** [s.rstrip()]: drops the trailing whitespace code points. *)
Definition rstrip (s : string) : string :=
  String.rev (lstrip_reversed (String.rev s)).

(** [s.strip()] *)
Definition strip (s : string) : string := rstrip (lstrip s).

(** Truth value of a [str]. *)
Definition truthy (s : string) : bool :=
  match s with EmptyString => false | String _ _ => true end.

Definition startswith (c : ascii) (s : string) : bool :=
  match s with String c' _ => bool_decide (c' = c) | EmptyString => false end.

Definition endswith (c : ascii) (s : string) : bool :=
  startswith c (String.rev s).

Fixpoint drop_to_slash (s : string) : string :=
  match s with
  | EmptyString => EmptyString
  | String c s' => if bool_decide (c = "/"%char) then s else drop_to_slash s'
  end.

Fixpoint drop_slashes (s : string) : string :=
  match s with
  | EmptyString => EmptyString
  | String c s' => if bool_decide (c = "/"%char) then drop_slashes s' else s
  end.

(** [os.path.dirname(p)] (POSIX): the text up to the last slash, without
    its trailing slashes unless it is made of slashes only. *)
Definition dirname (p : string) : string :=
  let head := drop_to_slash (String.rev p) in
  match drop_slashes head with
  | EmptyString => String.rev head
  | rest => String.rev rest
  end.

(** [os.path.join(a, b)] for a non-empty [a] (POSIX). *)
Definition path_join (a b : string) : string :=
  if startswith "/" b then b
  else if endswith "/" a then a +:+ b
  else a +:+ "/" +:+ b.

End Py.

Module WTForms.

(** [DataRequired]: the field data is truthy and, for a string, is not
    blank once stripped. *)
Definition DataRequired (data : option string) : bool :=
  match data with
  | Some s => Py.truthy s && Py.truthy (Py.strip s)
  | None => false
  end.

(** [EqualTo(other)]: the field data equals the other field's data. *)
Definition EqualTo (data other : option string) : bool :=
  bool_decide (data = other).

(** [SelectField] accepts only one of its declared choice values. *)
Definition valid_choice (choices : list string) (data : option string) : bool :=
  match data with
  | Some s => bool_decide (s ∈ choices)
  | None => false
  end.

End WTForms.

Inductive Method := GET | POST.

(** [FlaskForm.validate_on_submit]: the request is a submission and the
    form validates. *)
Definition validate_on_submit (m : Method) (validate : bool) : bool :=
  match m with
  | POST => validate
  | GET => false
  end.

(** An uploaded file ([werkzeug.datastructures.FileStorage]). *)
Module FileStorage.
Record t := mk { filename : string; stream : string }.

(** [bool(file)] is [bool(file.filename)]. *)
Definition truthy (f : t) : bool := Py.truthy (filename f).
End FileStorage.

(** ** Forms *)

Module LoginForm.
Record t := mk {
  csrf_token : bool;
  username : option string;
  password : option string
}.

Definition validate (f : t) : bool :=
  csrf_token f
  && WTForms.DataRequired (username f)
  && WTForms.DataRequired (password f).
End LoginForm.

Module RegisterForm.
Record t := mk {
  csrf_token : bool;
  username : option string;
  password : option string;
  confirm_password : option string;
  role : option string
}.

Definition role_choices : list string := ["farmer"; "buyer"].

Definition validate (f : t) : bool :=
  csrf_token f
  && WTForms.DataRequired (username f)
  && WTForms.DataRequired (password f)
  && (WTForms.DataRequired (confirm_password f)
      && WTForms.EqualTo (confirm_password f) (password f))
  && (WTForms.valid_choice role_choices (role f)
      && WTForms.DataRequired (role f)).
End RegisterForm.

Module SellRiceForm.
Record t := mk {
  csrf_token : bool;
  name : option string;
  description : option string;
  price : option string;
  quantity : option string;
  image : option FileStorage.t
}.

Definition validate (f : t) : bool :=
  csrf_token f
  && WTForms.DataRequired (name f)
  && WTForms.DataRequired (price f)
  && WTForms.DataRequired (quantity f).

(** [if form.image.data:] *)
Definition image_truthy (f : t) : bool :=
  match image f with
  | Some file => FileStorage.truthy file
  | None => false
  end.
End SellRiceForm.

(** ** Database models *)

(** The next value of an integer primary key: one above the largest in use. *)
Definition next_id (ids : list nat) : nat := S (max_list ids).

Module Farmer.
Record t := mk {
  id : nat;
  username : string;
  password : string;
  role : string;
  qr_code : option string
}.

(** [Farmer.query.get(i)] *)
Definition query_get (rows : list t) (i : nat) : option t :=
  find (λ f, bool_decide (id f = i)) rows.

(** [Farmer.query.filter_by(username=u).first()]; a comparison with
    [None] selects no row. *)
Definition filter_by_username (rows : list t) (u : option string) : option t :=
  match u with
  | Some u => find (λ f, bool_decide (username f = u)) rows
  | None => None
  end.

(** [db.session.add(Farmer(username=.., password=.., role=..))] followed
    by [db.session.commit()].  [None] is an integrity error: a missing
    value in a non-nullable column or a username already in the table. *)
Definition add_commit (rows : list t) (username' password' role' : option string)
  : option (list t) :=
  u ← username'; p ← password'; r ← role';
  if bool_decide (u ∈ map username rows) then None
  else Some (rows ++ [mk (next_id (map id rows)) u p r None])%list.
End Farmer.

(** ** What the storage layer makes of a bound value *)

(** A value as SQLite holds it in a column with integer affinity. *)
Inductive SqlValue :=
  | sql_integer (z : Z)
  | sql_real (x : spec_float)
  | sql_text (s : string).

(** The conversions applied to the text the handler puts in the numeric
    columns.  They belong to SQLAlchemy, Python and SQLite, not to the
    application. *)
Class Storage := {
  (** The bind processor of a [Float] column: Python's [float(value)];
      [None] when it raises [ValueError]. *)
  to_float : string → option spec_float;
  (** What a column of integer affinity stores for a bound text; it never
      fails. *)
  integer_affinity : string → SqlValue
}.

(** The driver binds NaN as NULL. *)
Definition is_nan (x : spec_float) : bool :=
  match x with
  | S754_nan => true
  | _ => false
  end.

(** The largest integer SQLite stores and its driver binds. *)
Definition SQLITE_MAX_INTEGER : N := 2 ^ 63 - 1.

(** Whether binding the Python integer [i] succeeds; above the bound the
    driver raises [OverflowError]. *)
Definition binds_as_integer (i : nat) : bool :=
  (N.of_nat i <=? SQLITE_MAX_INTEGER)%N.

Module RiceProduct.
Record t := mk {
  id : nat;
  name : string;
  description : option string;
  price : spec_float;
  quantity : SqlValue;
  image : option string;
  farmer_id : nat
}.

(** [RiceProduct.query.get(i)] on the rows of the table. *)
Definition query_get (rows : list t) (i : nat) : option t :=
  find (λ p, bool_decide (id p = i)) rows.

(** [RiceProduct.query.filter_by(farmer_id=i).all()] *)
Definition filter_by_farmer_id (rows : list t) (i : nat) : list t :=
  filter (λ p, farmer_id p = i) rows.

(** [db.session.add(RiceProduct(...))] followed by [db.session.commit()].
    [None] is an error raised by the commit: a missing value in a
    non-nullable column, a price that [float()] rejects, or a price that
    is NaN and so reaches the non-nullable column as NULL. *)
Definition add_commit {S : Storage} (rows : list t)
    (name' description' price' quantity' image' : option string) (farmer_id' : nat)
  : option (list t) :=
  n ← name'; pr ← price'; q ← quantity';
  x ← to_float pr;
  if is_nan x then None
  else Some (rows ++ [mk (next_id (map id rows)) n description' x
                        (integer_affinity q) image' farmer_id'])%list.
End RiceProduct.

(** ** The password hashing and file name helpers imported from Werkzeug *)

Class Werkzeug := {
  (** [generate_password_hash(password)]; the first argument is the
      randomness the salt is drawn from. *)
  generate_password_hash : string → string → string;
  (** [check_password_hash(pwhash, password)] *)
  check_password_hash : string → string → bool;
  (** [secure_filename(filename)] *)
  secure_filename : string → string
}.

(** What the application relies on: a generated hash verifies the password
    it was generated from. *)
Class WerkzeugVerifies (W : Werkzeug) : Prop :=
  check_generate : ∀ entropy password,
    check_password_hash (generate_password_hash entropy password) password = true.

(** A generated hash is never the password itself. *)
Class WerkzeugHides (W : Werkzeug) : Prop :=
  generate_not_plain : ∀ entropy password,
    generate_password_hash entropy password ≠ password.

Module User.
Record t := mk {
  id : option nat;
  username : option string;
  email : option string;
  password : option string
}.

Section methods.
Context {W : Werkzeug}.

Definition set_password (self : t) (entropy password' : string) : t :=
  mk (id self) (username self) (email self)
     (Some (generate_password_hash entropy password')).

(** [None]: the stored hash is [None] and the check raises. *)
Definition check_password (self : t) (password' : string) : option bool :=
  h ← password self; Some (check_password_hash h password').
End methods.
End User.

(** ** Store, session, responses *)

(** What a path of the file system holds. *)
Inductive Node :=
  | regular (content : string)
  | directory.

Record State := mkState {
  farmers : list Farmer.t;
  rice_products : list RiceProduct.t;
  users : list User.t;
  (** the file system, by path as written *)
  files : gmap string Node
}.

Definition init_state : State := mkState [] [] [] ∅.

(** The session cookie: the logged-in account id, if any.  The id is one
    [login_user] can have written, so it is within the range of an SQLite
    integer. *)
Definition Session := option nat.

(** What a handler passes to the template it renders. *)
Inductive Context :=
  | ctx_products (products : list RiceProduct.t)
  | ctx_login_form (form : LoginForm.t)
  | ctx_register_form (form : RegisterForm.t)
  | ctx_sell_rice_form (form : SellRiceForm.t)
  | ctx_product (product : RiceProduct.t)
  | ctx_payment (product : RiceProduct.t) (farmer_qr_code : option string).

Inductive Response :=
  | render_template (template : string) (ctx : Context)
  | redirect (location : string)
  | abort (status : nat).

(** A flashed message with its category. *)
Definition Flash : Type := string * string.

Record Outcome := mkOutcome {
  out_state : State;
  out_session : Session;
  out_flashes : list Flash;
  out_response : Response
}.

Definition UPLOAD_FOLDER : string := "static/uploads".

Definition url_for (endpoint : string) : string :=
  match endpoint with
  | "index" => "/"
  | "login" => "/login"
  | "register" => "/register"
  | "sell_rice" => "/sell_rice"
  | "profile" => "/profile"
  | _ => ""
  end.

(** Whether [path] names a directory: the current directory, the root,
    or a directory node. *)
Definition is_directory (fs : gmap string Node) (path : string) : bool :=
  match Py.drop_slashes path with
  | EmptyString => true
  | _ => match fs !! path with
         | Some directory => true
         | _ => false
         end
  end.

(** [file.save(dst)] opens [dst] for writing and copies the stream into it,
    replacing what was there.  Opening fails when [dst] is empty or ends in a
    slash, when it names a directory, or when the directory it lies in does
    not exist. *)
Definition FileStorage_save (file : FileStorage.t) (dst : string)
    (fs : gmap string Node) : option (gmap string Node) :=
  if negb (Py.truthy dst) || Py.endswith "/" dst then None
  else
    match fs !! dst with
    | Some directory => None
    | _ =>
        if is_directory fs (Py.dirname dst)
        then Some (<[dst := regular (FileStorage.stream file)]> fs)
        else None
    end.

(** [load_user]: the account the session's id names, reloaded on each
    request. *)
Definition load_user (st : State) (user_id : nat) : option Farmer.t :=
  Farmer.query_get (farmers st) user_id.

Definition current_user (st : State) (sess : Session) : option Farmer.t :=
  sess ≫= load_user st.

(** An exception that no handler catches. *)
Definition internal_server_error (st : State) (sess : Session) : Outcome :=
  mkOutcome st sess [] (abort 500).

(** [@login_required] for an anonymous request: Flask-Login flashes its
    message and redirects to [login_view] (the [next] query parameter of the
    redirect is left out). *)
Definition unauthorized (st : State) (sess : Session) : Outcome :=
  mkOutcome st sess [("Please log in to access this page.", "message")]
    (redirect (url_for "login")).

(** The three ends of [RiceProduct.query.get_or_404(id)] for an id taken
    from the URL. *)
Inductive Lookup :=
  | found (product : RiceProduct.t)
  | not_found
  | bind_error.

(** [RiceProduct.query.get_or_404(id)].  The driver raises before the
    query runs when [id] is too large to bind.  Every id a row holds is an
    SQLite integer and binds, so such an [id] is one no row has; the bound is
    therefore tested where the lookup found nothing. *)
Definition get_or_404 (rows : list RiceProduct.t) (id : nat) : Lookup :=
  match RiceProduct.query_get rows id with
  | Some product => found product
  | None => if binds_as_integer id then not_found else bind_error
  end.

(** ** Route handlers *)

Section routes.
Context {W : Werkzeug} {S : Storage}.

(** [@app.route('/')] *)
Definition index (st : State) (sess : Session) : Outcome :=
  let products := rice_products st in
  mkOutcome st sess [] (render_template "index.html" (ctx_products products)).

(** [@app.route('/login', methods=['GET', 'POST'])] *)
Definition login (st : State) (sess : Session) (m : Method) (form : LoginForm.t)
  : Outcome :=
  if validate_on_submit m (LoginForm.validate form) then
    match Farmer.filter_by_username (farmers st) (LoginForm.username form),
          LoginForm.password form with
    | Some farmer, Some password =>
        if check_password_hash (Farmer.password farmer) password then
          mkOutcome st (Some (Farmer.id farmer))
            [("Logged in successfully!", "message")]
            (redirect (url_for "index"))
        else
          mkOutcome st sess [("Invalid username or password", "error")]
            (render_template "login.html" (ctx_login_form form))
    | Some farmer, None => internal_server_error st sess
    | None, _ =>
        mkOutcome st sess [("Invalid username or password", "error")]
          (render_template "login.html" (ctx_login_form form))
    end
  else
    mkOutcome st sess [] (render_template "login.html" (ctx_login_form form)).

(** [@app.route('/register', methods=['GET', 'POST'])]; [entropy] is the
    randomness the password hash draws its salt from. *)
Definition register (st : State) (sess : Session) (m : Method)
    (form : RegisterForm.t) (entropy : string) : Outcome :=
  if validate_on_submit m (RegisterForm.validate form) then
    match Farmer.filter_by_username (farmers st) (RegisterForm.username form) with
    | Some user_exists =>
        mkOutcome st sess
          [("Username already exists. Please choose another.", "error")]
          (redirect (url_for "register"))
    | None =>
        match RegisterForm.password form with
        | None => internal_server_error st sess
        | Some password =>
            let hashed_password := generate_password_hash entropy password in
            match Farmer.add_commit (farmers st) (RegisterForm.username form)
                    (Some hashed_password) (RegisterForm.role form) with
            | None => internal_server_error st sess
            | Some farmers' =>
                mkOutcome
                  (mkState farmers' (rice_products st) (users st) (files st))
                  sess [("Registered successfully!", "message")]
                  (redirect (url_for "login"))
            end
        end
    end
  else
    mkOutcome st sess [] (render_template "register.html" (ctx_register_form form)).

(** The image upload step of [sell_rice]: the stored file name (if any)
    and the files afterwards; [None] when saving raises. *)
Definition upload_image (form : SellRiceForm.t) (fs : gmap string Node)
  : option (option string * gmap string Node) :=
  match SellRiceForm.image form with
  | Some file =>
      if FileStorage.truthy file then
        let filename := secure_filename (FileStorage.filename file) in
        let filepath := Py.path_join UPLOAD_FOLDER filename in
        fs' ← FileStorage_save file filepath fs;
        Some (Some filename, fs')
      else Some (None, fs)
  | None => Some (None, fs)
  end.

(** [@app.route('/sell_rice', methods=['GET', 'POST'])], [@login_required] *)
Definition sell_rice (st : State) (sess : Session) (m : Method)
    (form : SellRiceForm.t) : Outcome :=
  match current_user st sess with
  | None => unauthorized st sess
  | Some user =>
      if negb (bool_decide (Farmer.role user = "farmer")) then
        mkOutcome st sess [("You must be a farmer to sell rice.", "message")]
          (redirect (url_for "index"))
      else if validate_on_submit m (SellRiceForm.validate form) then
        match upload_image form (files st) with
        | None => internal_server_error st sess
        | Some (filename, files') =>
            let st1 := mkState (farmers st) (rice_products st) (users st) files' in
            match RiceProduct.add_commit (rice_products st)
                    (SellRiceForm.name form) (SellRiceForm.description form)
                    (SellRiceForm.price form) (SellRiceForm.quantity form)
                    filename (Farmer.id user) with
            | None => internal_server_error st1 sess
            | Some products' =>
                mkOutcome (mkState (farmers st) products' (users st) files')
                  sess [("Rice product added!", "message")]
                  (redirect (url_for "index"))
            end
        end
      else
        mkOutcome st sess []
          (render_template "sell_rice.html" (ctx_sell_rice_form form))
  end.

(** [@app.route('/product/<int:id>')] *)
Definition product_details (st : State) (sess : Session) (id : nat) : Outcome :=
  match get_or_404 (rice_products st) id with
  | bind_error => internal_server_error st sess
  | not_found => mkOutcome st sess [] (abort 404)
  | found product =>
      mkOutcome st sess []
        (render_template "product_details.html" (ctx_product product))
  end.

(** [@app.route('/profile')], [@login_required] *)
Definition profile (st : State) (sess : Session) : Outcome :=
  match current_user st sess with
  | None => unauthorized st sess
  | Some user =>
      if negb (bool_decide (Farmer.role user = "farmer")) then
        mkOutcome st sess [("You must be a farmer to view this page.", "message")]
          (redirect (url_for "index"))
      else
        let products :=
          RiceProduct.filter_by_farmer_id (rice_products st) (Farmer.id user) in
        mkOutcome st sess [] (render_template "profile.html" (ctx_products products))
  end.

(** [@app.route('/buy_now/<int:id>')], [@login_required] *)
Definition buy_now (st : State) (sess : Session) (id : nat) : Outcome :=
  match current_user st sess with
  | None => unauthorized st sess
  | Some user =>
      if negb (bool_decide (Farmer.role user = "buyer")) then
        mkOutcome st sess [("Only buyers can make purchases.", "message")]
          (redirect (url_for "index"))
      else
        match get_or_404 (rice_products st) id with
        | bind_error => internal_server_error st sess
        | not_found => mkOutcome st sess [] (abort 404)
        | found product =>
            match Farmer.query_get (farmers st) (RiceProduct.farmer_id product) with
            | None => mkOutcome st sess [] (abort 404)
            | Some farmer =>
                let farmer_qr_code := Farmer.qr_code farmer in
                mkOutcome st sess []
                  (render_template "payment_page.html"
                     (ctx_payment product farmer_qr_code))
            end
        end
  end.

(** ** Requests and runs *)

Inductive Request :=
  | req_index
  | req_login (m : Method) (form : LoginForm.t)
  | req_register (m : Method) (form : RegisterForm.t) (entropy : string)
  | req_sell_rice (m : Method) (form : SellRiceForm.t)
  | req_product_details (id : nat)
  | req_profile
  | req_buy_now (id : nat).

(** Dispatch of a request to its route. *)
Definition handle (st : State) (sess : Session) (req : Request) : Outcome :=
  match req with
  | req_index => index st sess
  | req_login m form => login st sess m form
  | req_register m form entropy => register st sess m form entropy
  | req_sell_rice m form => sell_rice st sess m form
  | req_product_details id => product_details st sess id
  | req_profile => profile st sess
  | req_buy_now id => buy_now st sess id
  end.

(** The store after a sequence of requests, each arriving with a session
    cookie of the client's choosing. *)
Fixpoint run (st : State) (reqs : list (Session * Request)) : State :=
  match reqs with
  | [] => st
  | (sess, req) :: reqs' => run (out_state (handle st sess req)) reqs'
  end.

(** Stores the application can reach from the freshly created tables,
    whatever the file system holds when it starts. *)
Definition reachable (st : State) : Prop :=
  ∃ fs reqs, st = run (mkState [] [] [] fs) reqs.

(** One browser's conversation: the cookie returned by a response is sent
    with the next request. *)
Fixpoint browse (st : State) (sess : Session) (reqs : list Request)
  : State * Session :=
  match reqs with
  | [] => (st, sess)
  | req :: reqs' =>
      let out := handle st sess req in
      browse (out_state out) (out_session out) reqs'
  end.

End routes.

(** ** Schema constraints and store invariants *)

(** Primary keys are unique in both tables. *)
Definition primary_keys_unique (st : State) : Prop :=
  NoDup (map Farmer.id (farmers st)) ∧
  NoDup (map RiceProduct.id (rice_products st)).

(** [username] is declared [unique=True]. *)
Definition usernames_unique (st : State) : Prop :=
  NoDup (map Farmer.username (farmers st)).

(** [farmer_id] is a foreign key into [farmer.id]. *)
Definition foreign_keys_hold (st : State) : Prop :=
  ∀ p, p ∈ rice_products st →
    RiceProduct.farmer_id p ∈ map Farmer.id (farmers st).

Definition schema_ok (st : State) : Prop :=
  primary_keys_unique st ∧ usernames_unique st ∧ foreign_keys_hold st.

(** No account has a QR code reference. *)
Definition qr_codes_unset (st : State) : Prop :=
  ∀ f, f ∈ farmers st → Farmer.qr_code f = None.

(** Every account's role is one the registration form offers. *)
Definition roles_declared (st : State) : Prop :=
  ∀ f, f ∈ farmers st → Farmer.role f ∈ RegisterForm.role_choices.

(** Only products owned by a farmer-role account exist. *)
Definition owners_are_farmers (st : State) : Prop :=
  ∀ p, p ∈ rice_products st →
    ∃ f, f ∈ farmers st ∧ Farmer.id f = RiceProduct.farmer_id p ∧
         Farmer.role f = "farmer".

(** A session cookie as [login] hands it out: anonymous, or the id of an
    account in the table. *)
Definition session_issued (st : State) (sess : Session) : Prop :=
  match sess with
  | Some user_id => user_id ∈ map Farmer.id (farmers st)
  | None => True
  end.

(** ** How one request changes the tables *)

(** The three ways a request leaves the tables: untouched, one account
    appended by [register], one product appended by [sell_rice]. *)
Inductive table_step (st st' : State) : Prop :=
  | step_none :
      farmers st' = farmers st →
      rice_products st' = rice_products st →
      table_step st st'
  | step_account username password role :
      farmers st'
        = (farmers st ++
            [Farmer.mk (next_id (map Farmer.id (farmers st)))
               username password role None])%list →
      username ∉ map Farmer.username (farmers st) →
      role ∈ RegisterForm.role_choices →
      rice_products st' = rice_products st →
      table_step st st'
  | step_product owner name description price quantity image :
      owner ∈ farmers st →
      Farmer.role owner = "farmer" →
      rice_products st'
        = (rice_products st ++
            [RiceProduct.mk (next_id (map RiceProduct.id (rice_products st)))
               name description price quantity image (Farmer.id owner)])%list →
      farmers st' = farmers st →
      table_step st st'.

(** ** An executable instance of the Werkzeug interface

    Hashes have Werkzeug's stored shape [method$salt$digest]; checking
    splits the stored string at the first two [$] and recomputes the
    digest.  The digest function is a parameter of the construction. *)

Module WerkzeugModel.

Definition SALT_CHARS : string :=
  "abcdefghijklmnopqrstuvwxyzABCDEFGHIJKLMNOPQRSTUVWXYZ0123456789".

Definition DEFAULT_METHOD : string := "scrypt:32768:8:1".

(** One salt character per unit of randomness. *)
Fixpoint gen_salt (entropy : string) : string :=
  match entropy with
  | EmptyString => EmptyString
  | String c rest =>
      match String.get (nat_of_ascii c mod 62) SALT_CHARS with
      | Some k => String k (gen_salt rest)
      | None => gen_salt rest
      end
  end.

(** [s.split("$", 1)]: the text before and after the first [$]. *)
Fixpoint split_dollar (s : string) : option (string * string) :=
  match s with
  | EmptyString => None
  | String c rest =>
      if bool_decide (c = "$"%char) then Some (EmptyString, rest)
      else match split_dollar rest with
           | Some (a, b) => Some (String c a, b)
           | None => None
           end
  end.

Fixpoint has_dollar (s : string) : bool :=
  match s with
  | EmptyString => false
  | String c rest => bool_decide (c = "$"%char) || has_dollar rest
  end.

Section digest.
Variable hash_internal : string → string → string → string.

Definition generate (entropy password : string) : string :=
  let salt := gen_salt entropy in
  DEFAULT_METHOD +:+ "$" +:+ salt +:+ "$"
    +:+ hash_internal DEFAULT_METHOD salt password.

Definition check (pwhash password : string) : bool :=
  match split_dollar pwhash with
  | Some (method, rest) =>
      match split_dollar rest with
      | Some (salt, hashval) =>
          bool_decide (hash_internal method salt password = hashval)
      | None => false
      end
  | None => false
  end.
End digest.

(** A transparent digest, enough to run the handlers on examples. *)
Definition plain_digest (method salt password : string) : string :=
  salt +:+ ":" +:+ password.

(** Keeps the characters a secured file name may contain. *)
Definition filename_char (c : ascii) : bool :=
  let n := nat_of_ascii c in
  ((48 <=? n)%nat && (n <=? 57)%nat) || ((65 <=? n)%nat && (n <=? 90)%nat)
  || ((97 <=? n)%nat && (n <=? 122)%nat)
  || bool_decide (c = "_"%char) || bool_decide (c = "."%char)
  || bool_decide (c = "-"%char).

Fixpoint keep_filename_chars (s : string) : string :=
  match s with
  | EmptyString => EmptyString
  | String c rest =>
      if filename_char c then String c (keep_filename_chars rest)
      else keep_filename_chars rest
  end.

Definition instance : Werkzeug := {|
  generate_password_hash := generate plain_digest;
  check_password_hash := check plain_digest;
  secure_filename := keep_filename_chars
|}.

End WerkzeugModel.

(** ** An executable instance of the storage conversions *)

Module StorageModel.

(** The value of a decimal digit. *)
Definition digit (c : ascii) : option N :=
  let n := N_of_ascii c in
  if ((48 <=? n) && (n <=? 57))%N then Some (n - 48)%N else None.

(** The digits that may follow the first digit of a digit part, each
    optionally preceded by one underscore: the number read so far, the count
    of digits read, and the text left. *)
Fixpoint more_digits (s : string) (acc count : N) : N * N * string :=
  match s with
  | EmptyString => (acc, count, s)
  | String c s' =>
      match digit c with
      | Some d => more_digits s' (10 * acc + d)%N (count + 1)%N
      | None =>
          if bool_decide (c = "_"%char) then
            match s' with
            | EmptyString => (acc, count, s)
            | String c' s'' =>
                match digit c' with
                | Some d => more_digits s'' (10 * acc + d)%N (count + 1)%N
                | None => (acc, count, s)
                end
            end
          else (acc, count, s)
      end
  end.

(** A digit part, continuing the number [acc]. *)
Definition digitpart (s : string) (acc : N) : option (N * N * string) :=
  match s with
  | EmptyString => None
  | String c s' =>
      match digit c with
      | Some d => Some (more_digits s' (10 * acc + d)%N 1%N)
      | None => None
      end
  end.

(** An optional sign: whether it is a minus, and the text after it. *)
Definition sign (s : string) : bool * string :=
  match s with
  | String "-" s' => (true, s')
  | String "+" s' => (false, s')
  | _ => (false, s)
  end.

(** [number]: digits with an optional fraction, or a fraction alone; the
    digits as one integer and the count of those after the point. *)
Definition number (s : string) : option (N * N * string) :=
  match s with
  | String "." s' => digitpart s' 0%N
  | _ =>
      match digitpart s 0%N with
      | None => None
      | Some (m, _, String "." rest) =>
          match digitpart rest m with
          | Some r => Some r
          | None => Some (m, 0%N, rest)
          end
      | Some (m, _, rest) => Some (m, 0%N, rest)
      end
  end.

(** [exponent], up to the end of the text; an absent exponent is zero. *)
Definition exponent (s : string) : option Z :=
  match s with
  | EmptyString => Some 0%Z
  | String c s' =>
      if bool_decide (c = "e"%char) || bool_decide (c = "E"%char) then
        let '(neg, s'') := sign s' in
        match digitpart s'' 0%N with
        | Some (e, _, EmptyString) =>
            Some (if neg then - Z.of_N e else Z.of_N e)%Z
        | _ => None
        end
      else None
  end.

Definition lower (c : ascii) : ascii :=
  let n := N_of_ascii c in
  if ((65 <=? n) && (n <=? 90))%N then ascii_of_N (n + 32) else c.

Fixpoint lowercase (s : string) : string :=
  match s with
  | EmptyString => EmptyString
  | String c s' => String (lower c) (lowercase s')
  end.

(** The binary64 number nearest to [m * 10 ^ k], ties to even. *)
Definition to_binary64 (neg : bool) (m : N) (k : Z) : spec_float :=
  match m with
  | N0 => S754_zero neg
  | Npos p =>
      let '(num, den) :=
        match k with
        | Zneg e => (p, Pos.pow 10 e)
        | Z0 => (p, 1%positive)
        | Zpos e => ((p * Pos.pow 10 e)%positive, 1%positive)
        end in
      SFdiv 53 1024 (S754_finite neg num 0) (S754_finite false den 0)
  end.

(** Python's [float()] on text whose digits are ASCII digits: an optional
    sign, then [inf], [infinity] or [nan] in any case, or a decimal number
    with an optional exponent; whitespace around it is dropped. *)
Definition float_of_string (s : string) : option spec_float :=
  let '(neg, body) := sign (Py.strip s) in
  let word := lowercase body in
  if bool_decide (word = "inf") || bool_decide (word = "infinity")
  then Some (S754_infinity neg)
  else if bool_decide (word = "nan") then Some S754_nan
  else
    match number body with
    | None => None
    | Some (m, count, rest) =>
        match exponent rest with
        | None => None
        | Some e => Some (to_binary64 neg m (e - Z.of_N count))
        end
    end.

Fixpoint all_digits (s : string) (acc : N) : option N :=
  match s with
  | EmptyString => Some acc
  | String c s' =>
      match digit c with
      | Some d => all_digits s' (10 * acc + d)%N
      | None => None
      end
  end.

(** Integer affinity on an integer literal (an optional sign and decimal
    digits) that fits in 64 bits.  Any other text is kept as text here; the
    examples bind such literals only. *)
Definition integer_of_string (s : string) : SqlValue :=
  let '(neg, body) := sign s in
  match body with
  | EmptyString => sql_text s
  | _ =>
      match all_digits body 0%N with
      | None => sql_text s
      | Some n =>
          let z := (if neg then - Z.of_N n else Z.of_N n)%Z in
          if ((- 2 ^ 63 <=? z) && (z <=? 2 ^ 63 - 1))%Z then sql_integer z
          else sql_text s
      end
  end.

Definition instance : Storage := {|
  to_float := float_of_string;
  integer_affinity := integer_of_string
|}.

End StorageModel.

(** ** Example data *)

Module Examples.

#[local] Existing Instance WerkzeugModel.instance.
#[local] Existing Instance StorageModel.instance.

Definition register_form (username password role : string) : RegisterForm.t :=
  RegisterForm.mk true (Some username) (Some password) (Some password) (Some role).

Definition login_form (username password : string) : LoginForm.t :=
  LoginForm.mk true (Some username) (Some password).

Definition basmati_form : SellRiceForm.t :=
  SellRiceForm.mk true (Some "Basmati") (Some "Long grain")
    (Some "120.5") (Some "50") None.

(** The form of [basmati_form] with another price text. *)
Definition priced_form (price : string) : SellRiceForm.t :=
  SellRiceForm.mk true (Some "Basmati") (Some "Long grain")
    (Some price) (Some "50") None.

(** A farmer and a buyer register. *)
Definition two_accounts_trace : list (Session * Request) :=
  [ (None, req_register POST (register_form "ravi" "paddy" "farmer") "k3");
    (None, req_register POST (register_form "bina" "grain" "buyer") "x9") ].

(** Then the farmer lists one product. *)
Definition shop_trace : list (Session * Request) :=
  (two_accounts_trace ++ [ (Some 1, req_sell_rice POST basmati_form) ])%list.

Definition ravi : Farmer.t :=
  Eval vm_compute in
    Farmer.mk 1 "ravi" (generate_password_hash "k3" "paddy") "farmer" None.

Definition bina : Farmer.t :=
  Eval vm_compute in
    Farmer.mk 2 "bina" (generate_password_hash "x9" "grain") "buyer" None.

(** 120.5 as a binary64 number. *)
Definition price_120_5 : spec_float :=
  S754_finite false (241 * 2 ^ 45) (-46).

Definition basmati : RiceProduct.t :=
  RiceProduct.mk 1 "Basmati" (Some "Long grain") price_120_5 (sql_integer 50)
    None 1.

Definition two_accounts : State := mkState [ravi; bina] [] [] ∅.

Definition shop : State := mkState [ravi; bina] [basmati] [] ∅.

(** A product whose owner row is missing. *)
Definition orphaned : State :=
  mkState [bina]
    [RiceProduct.mk 1 "Basmati" None price_120_5 (sql_integer 50) None 7] [] ∅.

(** An id too large for the driver to bind. *)
Definition huge_id : nat := N.to_nat (2 ^ 63).

(** The UTF-8 bytes of U+00A0, a no-break space. *)
Definition nbsp : string :=
  String (ascii_of_nat 194) (String (ascii_of_nat 160) EmptyString).

End Examples.

(** ** Further predicates on requests and stores *)

(** A request that submits a form; every other request is a plain [GET]. *)
Definition is_submission (req : Request) : bool :=
  match req with
  | req_login POST _ | req_register POST _ _ | req_sell_rice POST _ => true
  | _ => false
  end.

(** Stored text passed [DataRequired], and a stored price is a number. *)
Definition rows_validated (st : State) : Prop :=
  (∀ f, f ∈ farmers st →
     WTForms.DataRequired (Some (Farmer.username f)) = true) ∧
  (∀ p, p ∈ rice_products st →
     WTForms.DataRequired (Some (RiceProduct.name p)) = true ∧
     is_nan (RiceProduct.price p) = false).

(** Every stored password is a generated hash of a submitted password. *)
Definition passwords_hashed {W : Werkzeug} (st : State) : Prop :=
  ∀ f, f ∈ farmers st →
    ∃ entropy password,
      WTForms.DataRequired (Some password) = true ∧
      Farmer.password f = generate_password_hash entropy password.

(** The path an uploaded file of the given client name is written to. *)
Definition upload_path {W : Werkzeug} (file : FileStorage.t) : string :=
  Py.path_join UPLOAD_FOLDER (secure_filename (FileStorage.filename file)).

(** ** Example uploads *)

Module UploadExamples.

Definition photo : FileStorage.t := FileStorage.mk "basmati.png" "PNG-1".

(** A client name that is secured to the name of [photo]. *)
Definition other_photo : FileStorage.t := FileStorage.mk "basmati!.png" "PNG-2".

(** A client name of which securing leaves nothing. *)
Definition unnamed_photo : FileStorage.t := FileStorage.mk "???" "PNG-3".

Definition form_with (file : FileStorage.t) (price : string) : SellRiceForm.t :=
  SellRiceForm.mk true (Some "Basmati") None (Some price) (Some "50")
    (Some file).

(** The two accounts of [Examples.two_accounts], on a file system that has
    the uploads directory. *)
Definition stocked : State :=
  mkState [Examples.ravi; Examples.bina] [] []
    {[ "static/uploads" := directory ]}.

End UploadExamples.

(** * Properties *)

(** ** The primitives on small inputs *)

Example strip_spaces : Py.strip "  Basmati rice 	" = "Basmati rice".
Proof. reflexivity. Qed.

Example DataRequired_blank : WTForms.DataRequired (Some "   ") = false.
Proof. reflexivity. Qed.

Example DataRequired_absent : WTForms.DataRequired None = false.
Proof. reflexivity. Qed.

Example strip_no_break_spaces :
  Py.strip (Examples.nbsp +:+ "ravi " +:+ Examples.nbsp) = "ravi".
Proof. reflexivity. Qed.

Example DataRequired_no_break_space :
  WTForms.DataRequired (Some Examples.nbsp) = false.
Proof. reflexivity. Qed.

Example dirname_upload :
  Py.dirname "static/uploads/basmati.png" = "static/uploads".
Proof. reflexivity. Qed.

Example dirname_plain : Py.dirname "basmati.png" = "".
Proof. reflexivity. Qed.

Example save_needs_directory :
  FileStorage_save UploadExamples.photo "static/uploads/basmati.png" ∅ = None.
Proof. reflexivity. Qed.

Example float_of_text :
  StorageModel.float_of_string "abc" = None ∧
  StorageModel.float_of_string "120.50" = Some Examples.price_120_5 ∧
  StorageModel.float_of_string " 1_0e-1 " = Some (S754_finite false (2 ^ 52) (-52)) ∧
  StorageModel.float_of_string "-Infinity" = Some (S754_infinity true) ∧
  StorageModel.float_of_string "NaN" = Some S754_nan.
Proof. by vm_compute. Qed.

Example path_join_upload :
  Py.path_join UPLOAD_FOLDER "basmati.png" = "static/uploads/basmati.png".
Proof. reflexivity. Qed.

Example RegisterForm_rejects_unknown_role :
  RegisterForm.validate
    (RegisterForm.mk true (Some "chen") (Some "millet") (Some "millet")
       (Some "admin")) = false.
Proof. reflexivity. Qed.

Example next_id_empty : next_id [] = 1.
Proof. reflexivity. Qed.

(** ** Lookups *)

Lemma DataRequired_Some data :
  WTForms.DataRequired data = true → ∃ s, data = Some s.
Proof. destruct data as [s|]; [eauto | discriminate]. Qed.

Lemma next_id_fresh ids : next_id ids ∉ ids.
Proof. apply max_list_not_elem_of_gt. unfold next_id. lia. Qed.

Lemma Farmer_query_get_Some rows i f :
  Farmer.query_get rows i = Some f → f ∈ rows ∧ Farmer.id f = i.
Proof.
  unfold Farmer.query_get. intros H. apply find_some in H as [Hin Hid].
  split; [by apply list_elem_of_In | by apply bool_decide_eq_true in Hid].
Qed.

Lemma Farmer_query_get_None rows i :
  Farmer.query_get rows i = None ↔ i ∉ map Farmer.id rows.
Proof.
  unfold Farmer.query_get. induction rows as [|f rows IH]; simpl.
  - split; [intros _; apply not_elem_of_nil | done].
  - rewrite not_elem_of_cons. case_bool_decide as Hid.
    + split; [discriminate | intros [Hne _]; congruence].
    + rewrite IH. split; [intros H; split; [congruence | done] | by intros [_ H]].
Qed.

Lemma Farmer_query_get_app rows extra i f :
  Farmer.query_get rows i = Some f →
  Farmer.query_get (rows ++ extra) i = Some f.
Proof.
  unfold Farmer.query_get. induction rows as [|g rows IH]; simpl; [discriminate|].
  destruct (bool_decide (Farmer.id g = i)); auto.
Qed.

Lemma RiceProduct_query_get_Some rows i p :
  RiceProduct.query_get rows i = Some p → p ∈ rows ∧ RiceProduct.id p = i.
Proof.
  unfold RiceProduct.query_get. intros H. apply find_some in H as [Hin Hid].
  split; [by apply list_elem_of_In | by apply bool_decide_eq_true in Hid].
Qed.

Lemma RiceProduct_query_get_None rows i :
  RiceProduct.query_get rows i = None ↔ i ∉ map RiceProduct.id rows.
Proof.
  unfold RiceProduct.query_get. induction rows as [|p rows IH]; simpl.
  - split; [intros _; apply not_elem_of_nil | done].
  - rewrite not_elem_of_cons. case_bool_decide as Hid.
    + split; [discriminate | intros [Hne _]; congruence].
    + rewrite IH. split; [intros H; split; [congruence | done] | by intros [_ H]].
Qed.

(** With unique primary keys, [query.get] returns the one row with the id. *)
Lemma RiceProduct_query_get_unique rows p :
  NoDup (map RiceProduct.id rows) → p ∈ rows →
  RiceProduct.query_get rows (RiceProduct.id p) = Some p.
Proof.
  unfold RiceProduct.query_get.
  induction rows as [|q rows IH]; simpl; intros Hnd Hin.
  - by apply elem_of_nil in Hin.
  - apply NoDup_cons in Hnd as [Hq Hnd]. case_bool_decide as Hid.
    + apply elem_of_cons in Hin as [->|Hin]; [done|].
      exfalso. apply Hq. rewrite Hid. by apply list_elem_of_fmap_2.
    + apply elem_of_cons in Hin as [->|Hin]; [done | by apply IH].
Qed.

Lemma filter_by_username_Some rows u f :
  Farmer.filter_by_username rows u = Some f →
  f ∈ rows ∧ u = Some (Farmer.username f).
Proof.
  destruct u as [u|]; simpl; [|discriminate]. intros H.
  apply find_some in H as [Hin Hu]. apply bool_decide_eq_true in Hu.
  split; [by apply list_elem_of_In | by rewrite Hu].
Qed.

Lemma filter_by_username_None rows u :
  Farmer.filter_by_username rows (Some u) = None ↔ u ∉ map Farmer.username rows.
Proof.
  simpl. induction rows as [|f rows IH]; simpl.
  - split; [intros _; apply not_elem_of_nil | done].
  - rewrite not_elem_of_cons. case_bool_decide as Hu.
    + split; [discriminate | intros [Hne _]; congruence].
    + rewrite IH. split; [intros H; split; [congruence | done] | by intros [_ H]].
Qed.

(** ** Selling rice *)

Section sell_rice_properties.
Context {W : Werkzeug} {S : Storage}.

Lemma upload_image_absent form fs :
  SellRiceForm.image_truthy form = false →
  upload_image form fs = Some (None, fs).
Proof.
  unfold upload_image, SellRiceForm.image_truthy.
  destruct (SellRiceForm.image form) as [file|]; [|done].
  by intros ->.
Qed.

(** A successful save writes the stream at the path and nothing else. *)
Lemma FileStorage_save_Some file dst fs fs' :
  FileStorage_save file dst fs = Some fs' →
  fs' = <[dst := regular (FileStorage.stream file)]> fs.
Proof.
  unfold FileStorage_save. intros Hsave.
  repeat case_match; congruence.
Qed.

(** The fields a validated form is sure to carry. *)
Lemma SellRiceForm_validate_fields form :
  SellRiceForm.validate form = true →
  ∃ n price_text q,
    SellRiceForm.name form = Some n ∧
    SellRiceForm.price form = Some price_text ∧
    SellRiceForm.quantity form = Some q.
Proof.
  unfold SellRiceForm.validate. intros Hvalid.
  apply andb_prop in Hvalid as [Hvalid Hq].
  apply andb_prop in Hvalid as [Hvalid Hp].
  apply andb_prop in Hvalid as [_ Hn].
  apply DataRequired_Some in Hn as [n Hn].
  apply DataRequired_Some in Hp as [p Hp].
  apply DataRequired_Some in Hq as [q Hq]. eauto 7.
Qed.

(** The commit of a validated submission whose price is a number. *)
Lemma sell_rice_commits st sess form user filename files' price_text price :
  current_user st sess = Some user →
  Farmer.role user = "farmer" →
  SellRiceForm.validate form = true →
  upload_image form (files st) = Some (filename, files') →
  SellRiceForm.price form = Some price_text →
  to_float price_text = Some price →
  is_nan price = false →
  ∃ n q,
    SellRiceForm.name form = Some n ∧
    SellRiceForm.quantity form = Some q ∧
    sell_rice st sess POST form
      = mkOutcome
          (mkState (farmers st)
             (rice_products st ++
                [RiceProduct.mk (next_id (map RiceProduct.id (rice_products st)))
                   n (SellRiceForm.description form) price (integer_affinity q)
                   filename (Farmer.id user)])
             (users st) files')
          sess [("Rice product added!", "message")] (redirect "/").
Proof.
  intros Huser Hrole Hvalid Hupload Hprice Hfloat Hnan.
  destruct (SellRiceForm_validate_fields form Hvalid)
    as (n & p & q & Hn & Hp & Hq).
  exists n, q. split; [done|]. split; [done|].
  unfold sell_rice. rewrite Huser, Hrole. simpl. rewrite Hvalid, Hupload.
  unfold RiceProduct.add_commit. rewrite Hn, Hprice, Hq. simpl.
  rewrite Hfloat. simpl. by rewrite Hnan.
Qed.

(** The commit of a validated submission whose price [float()] rejects,
    or turns into NaN, raises: no row is written. *)
Lemma sell_rice_commit_fails st sess form user filename files' price_text :
  current_user st sess = Some user →
  Farmer.role user = "farmer" →
  SellRiceForm.validate form = true →
  upload_image form (files st) = Some (filename, files') →
  SellRiceForm.price form = Some price_text →
  to_float price_text = None ∨ to_float price_text = Some S754_nan →
  sell_rice st sess POST form
    = mkOutcome (mkState (farmers st) (rice_products st) (users st) files')
        sess [] (abort 500).
Proof.
  intros Huser Hrole Hvalid Hupload Hprice Hbad.
  destruct (SellRiceForm_validate_fields form Hvalid)
    as (n & p & q & Hn & Hp & Hq).
  unfold sell_rice. rewrite Huser, Hrole. simpl. rewrite Hvalid, Hupload.
  unfold RiceProduct.add_commit. rewrite Hn, Hprice, Hq. simpl.
  by destruct Hbad as [-> | ->].
Qed.

(** C1 as amended: a valid [/sell_rice] submission without an image, sent
    by a logged-in account of role farmer, whose price text [float()]
    converts to a number other than NaN, appends exactly one product row:
    its image is null, its owner is the submitting account, its id is new,
    its name and description are the submitted ones, its price is the
    converted number and its quantity what the integer column makes of the
    submitted text.  Nothing else in the store changes, the response
    redirects to [/], and the catalog rendered afterwards lists the new
    product. *)
Theorem sell_rice_without_image st sess form user price_text price :
  current_user st sess = Some user →
  Farmer.role user = "farmer" →
  SellRiceForm.validate form = true →
  SellRiceForm.image_truthy form = false →
  SellRiceForm.price form = Some price_text →
  to_float price_text = Some price →
  is_nan price = false →
  let out := sell_rice st sess POST form in
  ∃ product quantity_text,
    rice_products (out_state out) = (rice_products st ++ [product])%list ∧
    RiceProduct.image product = None ∧
    RiceProduct.farmer_id product = Farmer.id user ∧
    (RiceProduct.id product ∉ map RiceProduct.id (rice_products st)) ∧
    SellRiceForm.name form = Some (RiceProduct.name product) ∧
    SellRiceForm.description form = RiceProduct.description product ∧
    RiceProduct.price product = price ∧
    SellRiceForm.quantity form = Some quantity_text ∧
    RiceProduct.quantity product = integer_affinity quantity_text ∧
    farmers (out_state out) = farmers st ∧
    users (out_state out) = users st ∧
    files (out_state out) = files st ∧
    out_session out = sess ∧
    out_response out = redirect "/" ∧
    ∀ sess', ∃ listing,
      out_response (index (out_state out) sess')
        = render_template "index.html" (ctx_products listing) ∧
      product ∈ listing.
Proof.
  intros Huser Hrole Hvalid Himage Hprice Hfloat Hnan. simpl.
  destruct (sell_rice_commits st sess form user None (files st) price_text price
              Huser Hrole Hvalid (upload_image_absent _ _ Himage)
              Hprice Hfloat Hnan) as (n & q & Hn & Hq & ->).
  eexists _, q. split; [reflexivity|]. simpl.
  do 2 (split; [reflexivity|]). split; [apply next_id_fresh|].
  do 3 (split; [done|]). split; [done|].
  do 6 (split; [reflexivity|]).
  intros sess'. eexists. split; [reflexivity|].
  apply elem_of_app. right. apply list_elem_of_singleton. reflexivity.
Qed.

(** C3: for a logged-in account whose role is not farmer, every request
    to [/sell_rice], whatever the method and the form, redirects to [/]
    with the role-mismatch message and leaves the store (and so the
    product table) and the session as they were. *)
Theorem sell_rice_requires_farmer st sess m form user :
  current_user st sess = Some user →
  Farmer.role user ≠ "farmer" →
  sell_rice st sess m form
    = mkOutcome st sess [("You must be a farmer to sell rice.", "message")]
        (redirect "/").
Proof.
  intros Huser Hrole. unfold sell_rice. rewrite Huser.
  by rewrite bool_decide_eq_false_2.
Qed.

(** The upload step with a file attached whose save succeeds. *)
Lemma upload_image_saved form file fs fs' :
  SellRiceForm.image form = Some file →
  FileStorage.truthy file = true →
  FileStorage_save file (upload_path file) fs = Some fs' →
  upload_image form fs
    = Some (Some (secure_filename (FileStorage.filename file)), fs').
Proof.
  intros Himage Htruthy Hsave. unfold upload_image.
  rewrite Himage, Htruthy. unfold upload_path in Hsave. by rewrite Hsave.
Qed.

End sell_rice_properties.

(** C1, as stated, fails: a submission that passes validation with a price
    that is not a number is answered with an error and creates no row. *)
Lemma sell_rice_text_price_creates_no_row :
  let out :=
    sell_rice (W := WerkzeugModel.instance) (S := StorageModel.instance)
      Examples.two_accounts (Some 1) POST (Examples.priced_form "abc") in
  current_user Examples.two_accounts (Some 1) = Some Examples.ravi ∧
  Farmer.role Examples.ravi = "farmer" ∧
  SellRiceForm.validate (Examples.priced_form "abc") = true ∧
  SellRiceForm.image_truthy (Examples.priced_form "abc") = false ∧
  rice_products (out_state out) = rice_products Examples.two_accounts ∧
  out_response out = abort 500.
Proof. vm_compute. by repeat split. Qed.

(** The submission of the specification's example, by the farmer of the
    example store. *)
Lemma sell_rice_without_image_witness :
  current_user Examples.two_accounts (Some 1) = Some Examples.ravi ∧
  Farmer.role Examples.ravi = "farmer" ∧
  SellRiceForm.validate Examples.basmati_form = true ∧
  SellRiceForm.image_truthy Examples.basmati_form = false ∧
  to_float (Storage := StorageModel.instance) "120.5"
    = Some Examples.price_120_5 ∧
  ∃ product,
    rice_products
      (out_state (sell_rice (W := WerkzeugModel.instance)
                    (S := StorageModel.instance)
                    Examples.two_accounts (Some 1) POST Examples.basmati_form))
      = [product] ∧
    RiceProduct.image product = None ∧
    RiceProduct.farmer_id product = 1 ∧
    RiceProduct.price product = Examples.price_120_5.
Proof.
  repeat (split; [reflexivity|]).
  destruct (sell_rice_without_image (W := WerkzeugModel.instance)
              (S := StorageModel.instance)
              Examples.two_accounts (Some 1) Examples.basmati_form Examples.ravi
              "120.5" Examples.price_120_5
              eq_refl eq_refl eq_refl eq_refl eq_refl eq_refl eq_refl)
    as (product & q & Hrows & Himage & Howner & _ & _ & _ & Hprice & _).
  exists product. auto.
Defined.

Lemma sell_rice_requires_farmer_witness :
  current_user Examples.shop (Some 2) = Some Examples.bina ∧
  Farmer.role Examples.bina ≠ "farmer" ∧
  rice_products
    (out_state (sell_rice (W := WerkzeugModel.instance)
                  (S := StorageModel.instance)
                  Examples.shop (Some 2) POST Examples.basmati_form))
    = rice_products Examples.shop.
Proof.
  split; [reflexivity|]. split; [discriminate|].
  rewrite (sell_rice_requires_farmer (W := WerkzeugModel.instance)
             (S := StorageModel.instance)
             Examples.shop (Some 2) POST Examples.basmati_form Examples.bina
             eq_refl); [reflexivity | discriminate].
Defined.

(** ** Every request is a table step *)

Section steps.
Context {W : Werkzeug} {S : Storage}.

Lemma register_step st sess m form entropy :
  table_step st (out_state (register st sess m form entropy)).
Proof.
  unfold register.
  destruct (validate_on_submit m (RegisterForm.validate form)) eqn:Hvalid;
    [|by apply step_none].
  destruct (Farmer.filter_by_username _ _) eqn:Hfree; [by apply step_none|].
  destruct (RegisterForm.password form) as [password|]; [|by apply step_none].
  destruct (Farmer.add_commit _ _ _ _) as [farmers'|] eqn:Hadd;
    [|by apply step_none].
  unfold Farmer.add_commit in Hadd.
  destruct (RegisterForm.username form) as [u|] eqn:Hu; [|discriminate].
  destruct (RegisterForm.role form) as [r|] eqn:Hr; [|discriminate].
  simpl in Hadd. case_bool_decide as Hdup; [discriminate|].
  injection Hadd as <-.
  apply (step_account _ _ u (generate_password_hash entropy password) r);
    simpl; [done | done | | done].
  destruct m; [discriminate|]. simpl in Hvalid.
  unfold RegisterForm.validate in Hvalid. rewrite Hr in Hvalid.
  apply andb_prop in Hvalid as [_ Hchoice].
  apply andb_prop in Hchoice as [Hchoice _].
  by apply bool_decide_eq_true in Hchoice.
Qed.

Lemma sell_rice_step st sess m form :
  table_step st (out_state (sell_rice st sess m form)).
Proof.
  unfold sell_rice.
  destruct (current_user st sess) as [user|] eqn:Huser; [|by apply step_none].
  case_bool_decide as Hrole; simpl; [|by apply step_none].
  destruct (validate_on_submit _ _); [|by apply step_none].
  destruct (upload_image _ _) as [[filename files']|]; [|by apply step_none].
  destruct (RiceProduct.add_commit _ _ _ _ _ _ _) as [products'|] eqn:Hadd;
    [|by apply step_none].
  unfold RiceProduct.add_commit in Hadd.
  destruct (SellRiceForm.name form) as [n|]; [|discriminate].
  destruct (SellRiceForm.price form) as [pr|]; [|discriminate].
  destruct (SellRiceForm.quantity form) as [q|]; [|discriminate].
  simpl in Hadd. destruct (to_float pr) as [x|]; [|discriminate].
  simpl in Hadd. destruct (is_nan x); [discriminate|]. injection Hadd as <-.
  apply (step_product _ _ user n (SellRiceForm.description form) x
           (integer_affinity q) filename);
    simpl; try done.
  destruct sess as [uid|]; [|discriminate]. simpl in Huser.
  by apply Farmer_query_get_Some in Huser as [? _].
Qed.

Lemma handle_step st sess req :
  table_step st (out_state (handle st sess req)).
Proof.
  destruct req; simpl.
  - by apply step_none.
  - unfold login. repeat case_match; by apply step_none.
  - apply register_step.
  - apply sell_rice_step.
  - unfold product_details. case_match; by apply step_none.
  - unfold profile. repeat case_match; by apply step_none.
  - unfold buy_now. repeat case_match; by apply step_none.
Qed.

(** Every request preserves the declared constraints. *)
Lemma table_step_schema_ok st st' :
  table_step st st' → schema_ok st → schema_ok st'.
Proof.
  intros Hstep ((Hfid & Hpid) & Huniq & Hfk).
  destruct Hstep as [Hf Hp | u p r Hf Hu Hr Hp | owner n d pr q img Hin Hrole Hp Hf];
    unfold schema_ok, primary_keys_unique, usernames_unique, foreign_keys_hold;
    rewrite Hf, Hp.
  - done.
  - rewrite !map_app. simpl. repeat split.
    + apply NoDup_app. repeat split; [done | | apply NoDup_singleton].
      intros i Hi Hnew. apply list_elem_of_singleton in Hnew as ->.
      by apply next_id_fresh in Hi.
    + done.
    + apply NoDup_app. repeat split; [done | | apply NoDup_singleton].
      intros v Hv Hnew. by apply list_elem_of_singleton in Hnew as ->.
    + intros prod Hprod. apply elem_of_app. left. by apply Hfk.
  - rewrite !map_app. simpl. repeat split.
    + done.
    + apply NoDup_app. repeat split; [done | | apply NoDup_singleton].
      intros i Hi Hnew. apply list_elem_of_singleton in Hnew as ->.
      by apply next_id_fresh in Hi.
    + done.
    + intros prod Hprod. apply elem_of_app in Hprod as [Hprod|Hprod].
      * by apply Hfk.
      * apply list_elem_of_singleton in Hprod as ->. simpl.
        by apply list_elem_of_fmap_2.
Qed.

Lemma table_step_qr_codes_unset st st' :
  table_step st st' → qr_codes_unset st → qr_codes_unset st'.
Proof.
  intros Hstep Hqr.
  destruct Hstep as [Hf Hp | u p r Hf Hu Hr Hp | owner n d pr q img Hin Hrole Hp Hf];
    unfold qr_codes_unset; rewrite Hf; [done | | done].
  intros f Hin. apply elem_of_app in Hin as [Hin|Hin]; [by apply Hqr|].
  by apply list_elem_of_singleton in Hin as ->.
Qed.

Lemma table_step_roles_declared st st' :
  table_step st st' → roles_declared st → roles_declared st'.
Proof.
  intros Hstep Hroles.
  destruct Hstep as [Hf Hp | u p r Hf Hu Hr Hp | owner n d pr q img Hin Hrole Hp Hf];
    unfold roles_declared; rewrite Hf; [done | | done].
  intros f Hin. apply elem_of_app in Hin as [Hin|Hin]; [by apply Hroles|].
  by apply list_elem_of_singleton in Hin as ->.
Qed.

Lemma table_step_owners_are_farmers st st' :
  table_step st st' → owners_are_farmers st → owners_are_farmers st'.
Proof.
  intros Hstep Hown.
  destruct Hstep as [Hf Hp | u p r Hf Hu Hr Hp | owner n d pr q img Hin Hrole Hp Hf];
    unfold owners_are_farmers; rewrite Hf, Hp.
  - done.
  - intros prod Hprod. destruct (Hown prod Hprod) as (f & Hfin & Hid & Hrole).
    exists f. split; [|done]. apply elem_of_app. by left.
  - intros prod Hprod. apply elem_of_app in Hprod as [Hprod|Hprod].
    + by apply Hown.
    + apply list_elem_of_singleton in Hprod as ->. by exists owner.
Qed.

(** A property of the empty tables that every request preserves holds of
    every reachable store. *)
Lemma reachable_ind (P : State → Prop) :
  (∀ fs, P (mkState [] [] [] fs)) →
  (∀ st st', table_step st st' → P st → P st') →
  ∀ st, reachable st → P st.
Proof.
  intros Hinit Hstep st (fs & reqs & ->).
  generalize (Hinit fs). generalize (mkState [] [] [] fs).
  induction reqs as [|[sess req] reqs IH]; intros st0 Hst0; simpl; [done|].
  apply IH. eapply Hstep; [apply handle_step | done].
Qed.

Lemma reachable_schema_ok st : reachable st → schema_ok st.
Proof.
  apply reachable_ind; [intros fs|apply table_step_schema_ok].
  repeat split; try apply NoDup_nil_2.
  intros p Hp. by apply elem_of_nil in Hp.
Qed.

Lemma reachable_qr_codes_unset st : reachable st → qr_codes_unset st.
Proof.
  apply reachable_ind; [intros fs|apply table_step_qr_codes_unset].
  intros f Hf. by apply elem_of_nil in Hf.
Qed.

Lemma reachable_roles_declared st : reachable st → roles_declared st.
Proof.
  apply reachable_ind; [intros fs|apply table_step_roles_declared].
  intros f Hf. by apply elem_of_nil in Hf.
Qed.

Lemma reachable_owners_are_farmers st : reachable st → owners_are_farmers st.
Proof.
  apply reachable_ind; [intros fs|apply table_step_owners_are_farmers].
  intros p Hp. by apply elem_of_nil in Hp.
Qed.

End steps.

(** ** Sessions *)

Section sessions.
Context {W : Werkzeug} {S : Storage}.

(** Accounts are never removed. *)
Lemma table_step_farmers_grow st st' :
  table_step st st' → map Farmer.id (farmers st) ⊆ map Farmer.id (farmers st').
Proof.
  intros [Hf _ | u p r Hf _ _ _ | owner n d pr q img _ _ _ Hf]; rewrite Hf;
    [done | | done].
  rewrite map_app. intros i Hi. apply elem_of_app. by left.
Qed.

(** Only [login] writes the session, and only with the id of the account
    it looked up. *)
Lemma handle_session st sess req :
  out_session (handle st sess req) = sess ∨
  ∃ farmer, farmer ∈ farmers st ∧
            out_session (handle st sess req) = Some (Farmer.id farmer).
Proof.
  destruct req; simpl;
    try (left; unfold register, sell_rice, product_details, profile, buy_now;
         repeat case_match; reflexivity).
  unfold login.
  destruct (validate_on_submit m (LoginForm.validate form)); [|by left].
  destruct (Farmer.filter_by_username _ _) as [farmer|] eqn:Hfind; [|by left].
  destruct (LoginForm.password form) as [password|]; [|by left].
  destruct (check_password_hash _ _); [|by left].
  right. exists farmer. split; [|done].
  by apply filter_by_username_Some in Hfind as [? _].
Qed.

Lemma handle_session_issued st sess req :
  session_issued st sess →
  session_issued (out_state (handle st sess req))
    (out_session (handle st sess req)).
Proof.
  intros Hsess. pose proof (table_step_farmers_grow _ _ (handle_step st sess req))
    as Hgrow.
  destruct (handle_session st sess req) as [-> | (farmer & Hin & ->)].
  - destruct sess as [uid|]; [|done]. by apply Hgrow.
  - apply Hgrow. by apply list_elem_of_fmap_2.
Qed.

(** A browser that starts anonymous only ever holds an issued session. *)
Lemma browse_session_issued reqs st sess :
  session_issued st sess →
  session_issued (browse st sess reqs).1 (browse st sess reqs).2.
Proof.
  revert st sess. induction reqs as [|req reqs IH]; intros st sess Hsess;
    simpl; [done|].
  by apply IH, handle_session_issued.
Qed.

End sessions.

(** ** The example stores are reachable *)

Lemma two_accounts_reachable :
  reachable (W := WerkzeugModel.instance)
      (S := StorageModel.instance) Examples.two_accounts.
Proof. exists ∅, Examples.two_accounts_trace. vm_compute. reflexivity. Qed.

Lemma shop_reachable : reachable (W := WerkzeugModel.instance)
    (S := StorageModel.instance) Examples.shop.
Proof. exists ∅, Examples.shop_trace. vm_compute. reflexivity. Qed.

(** ** Product pages and the payment page *)

Section product_properties.
Context {W : Werkzeug} {S : Storage}.

Lemma get_or_404_found rows product :
  NoDup (map RiceProduct.id rows) → product ∈ rows →
  get_or_404 rows (RiceProduct.id product) = found product.
Proof.
  intros Hpk Hin. unfold get_or_404.
  by rewrite (RiceProduct_query_get_unique _ _ Hpk Hin).
Qed.

Lemma get_or_404_missing rows id :
  id ∉ map RiceProduct.id rows →
  get_or_404 rows id = if binds_as_integer id then not_found else bind_error.
Proof.
  intros Hmissing. unfold get_or_404.
  apply RiceProduct_query_get_None in Hmissing. by rewrite Hmissing.
Qed.

(** C4 as amended: [/product/<id>] never changes the store or the
    session.  For an id no product row has it answers 404 when the id is at
    most 2^63 - 1, and 500 when it is larger; when a row has the id (ids
    being the primary key) it renders the detail page with exactly that
    stored row: its name, description, price, quantity and image. *)
Theorem product_details_spec st sess id :
  let out := product_details st sess id in
  out_state out = st ∧
  out_session out = sess ∧
  out_flashes out = [] ∧
  (id ∉ map RiceProduct.id (rice_products st) →
     (binds_as_integer id = true → out_response out = abort 404) ∧
     (binds_as_integer id = false → out_response out = abort 500)) ∧
  (∀ product,
     NoDup (map RiceProduct.id (rice_products st)) →
     product ∈ rice_products st →
     RiceProduct.id product = id →
     out_response out
       = render_template "product_details.html" (ctx_product product)).
Proof.
  unfold product_details. simpl. split_and!.
  - by destruct (get_or_404 _ _).
  - by destruct (get_or_404 _ _).
  - by destruct (get_or_404 _ _).
  - intros Hmissing. rewrite (get_or_404_missing _ _ Hmissing).
    split; by intros ->.
  - intros product Hpk Hin <-. by rewrite (get_or_404_found _ _ Hpk Hin).
Qed.

(** C5: for a logged-in account in a store that meets the declared keys,
    [/buy_now/<id>] redirects a farmer to [/] with a flash message; for a
    buyer and an existing product it renders the payment page with that
    product and the [qr_code] column of the owning account.  In a store
    the routes themselves produced that column is null. *)
Theorem buy_now_spec st sess id user :
  schema_ok st →
  current_user st sess = Some user →
  (Farmer.role user = "farmer" →
     buy_now st sess id
       = mkOutcome st sess [("Only buyers can make purchases.", "message")]
           (redirect "/")) ∧
  (Farmer.role user = "buyer" →
     ∀ product,
       product ∈ rice_products st → RiceProduct.id product = id →
       ∃ farmer,
         farmer ∈ farmers st ∧
         Farmer.id farmer = RiceProduct.farmer_id product ∧
         (reachable st → Farmer.qr_code farmer = None) ∧
         buy_now st sess id
           = mkOutcome st sess []
               (render_template "payment_page.html"
                  (ctx_payment product (Farmer.qr_code farmer)))).
Proof.
  intros ((_ & Hpk) & _ & Hfk) Huser. unfold buy_now. rewrite Huser. split.
  - by intros ->.
  - intros -> product Hin <-. simpl.
    rewrite (get_or_404_found _ _ Hpk Hin).
    destruct (Farmer.query_get (farmers st) (RiceProduct.farmer_id product))
      as [farmer|] eqn:Hget.
    + apply Farmer_query_get_Some in Hget as [Hfin Hfid].
      exists farmer. repeat split; [done | done |].
      intros Hreach. by apply (reachable_qr_codes_unset st Hreach).
    + apply Farmer_query_get_None in Hget. by apply Hfk in Hin.
Qed.

(** C9: for a logged-in buyer, when the product with the id exists but no
    account row has the product's [farmer_id], [/buy_now/<id>] answers 404
    and renders nothing. *)
Theorem buy_now_orphaned_product st sess id user product :
  current_user st sess = Some user →
  Farmer.role user = "buyer" →
  NoDup (map RiceProduct.id (rice_products st)) →
  product ∈ rice_products st →
  RiceProduct.id product = id →
  RiceProduct.farmer_id product ∉ map Farmer.id (farmers st) →
  buy_now st sess id = mkOutcome st sess [] (abort 404).
Proof.
  intros Huser Hrole Hpk Hin <- Horphan. unfold buy_now.
  rewrite Huser, Hrole. simpl.
  rewrite (get_or_404_found _ _ Hpk Hin).
  apply Farmer_query_get_None in Horphan. by rewrite Horphan.
Qed.

End product_properties.

Lemma example_shop_schema_ok : schema_ok Examples.shop.
Proof.
  apply (reachable_schema_ok (W := WerkzeugModel.instance)
           (S := StorageModel.instance)), shop_reachable.
Qed.

Lemma huge_id_does_not_bind : binds_as_integer Examples.huge_id = false.
Proof.
  unfold binds_as_integer, Examples.huge_id. rewrite N2Nat.id. reflexivity.
Qed.

Lemma huge_id_is_no_product :
  Examples.huge_id ∉ map RiceProduct.id (rice_products Examples.shop).
Proof.
  change (map RiceProduct.id (rice_products Examples.shop)) with [1].
  intros Hin. apply list_elem_of_singleton in Hin.
  pose proof huge_id_does_not_bind as Hhuge. rewrite Hin in Hhuge.
  discriminate Hhuge.
Qed.

(** C4, as stated, fails: for an id of 2^63, which no product has, the
    answer is 500 and not 404. *)
Lemma product_details_huge_id_is_error :
  (Examples.huge_id ∉ map RiceProduct.id (rice_products Examples.shop)) ∧
  out_response (product_details Examples.shop None Examples.huge_id)
    = abort 500 ∧
  out_response (product_details Examples.shop None Examples.huge_id)
    ≠ abort 404.
Proof.
  assert (out_response (product_details Examples.shop None Examples.huge_id)
          = abort 500) as Herror.
  { unfold product_details.
    rewrite (get_or_404_missing _ _ huge_id_is_no_product).
    by rewrite huge_id_does_not_bind. }
  split; [apply huge_id_is_no_product|]. split; [exact Herror|].
  rewrite Herror. discriminate.
Qed.

Lemma product_details_spec_witness :
  out_response (product_details Examples.shop None 5) = abort 404 ∧
  out_response (product_details Examples.shop None 1)
    = render_template "product_details.html" (ctx_product Examples.basmati).
Proof.
  destruct (product_details_spec Examples.shop None 5) as (_ & _ & _ & Hnone & _).
  destruct (product_details_spec Examples.shop None 1) as (_ & _ & _ & _ & Hsome).
  split.
  - apply Hnone; [|reflexivity]. simpl. intros Hin.
    apply list_elem_of_singleton in Hin. discriminate.
  - apply (Hsome Examples.basmati).
    + apply example_shop_schema_ok.
    + apply list_elem_of_singleton. reflexivity.
    + reflexivity.
Defined.

Lemma buy_now_spec_witness :
  current_user Examples.shop (Some 2) = Some Examples.bina ∧
  current_user Examples.shop (Some 1) = Some Examples.ravi ∧
  out_response (buy_now Examples.shop (Some 1) 1) = redirect "/" ∧
  out_response (buy_now Examples.shop (Some 2) 1)
    = render_template "payment_page.html" (ctx_payment Examples.basmati None).
Proof.
  split; [reflexivity|]. split; [reflexivity|].
  destruct (buy_now_spec (W := WerkzeugModel.instance)
              (S := StorageModel.instance) Examples.shop (Some 1) 1 Examples.ravi
              example_shop_schema_ok eq_refl) as [Hfarmer _].
  destruct (buy_now_spec (W := WerkzeugModel.instance)
              (S := StorageModel.instance) Examples.shop (Some 2) 1 Examples.bina
              example_shop_schema_ok eq_refl) as [_ Hbuyer].
  split.
  - by rewrite Hfarmer.
  - destruct (Hbuyer eq_refl Examples.basmati) as (farmer & _ & _ & Hqr & ->);
      [apply list_elem_of_singleton; reflexivity | reflexivity |].
    simpl. rewrite (Hqr shop_reachable). reflexivity.
Defined.

Lemma buy_now_orphaned_product_witness :
  current_user Examples.orphaned (Some 2) = Some Examples.bina ∧
  buy_now Examples.orphaned (Some 2) 1
    = mkOutcome Examples.orphaned (Some 2) [] (abort 404).
Proof.
  split; [reflexivity|].
  eapply (buy_now_orphaned_product Examples.orphaned (Some 2) 1 Examples.bina).
  - reflexivity.
  - reflexivity.
  - apply NoDup_singleton.
  - apply list_elem_of_singleton. reflexivity.
  - reflexivity.
  - simpl. intros Hin. apply list_elem_of_singleton in Hin. discriminate.
Defined.

(** ** Registration and login *)

Lemma filter_by_username_app_new rows account :
  Farmer.username account ∉ map Farmer.username rows →
  Farmer.filter_by_username (rows ++ [account]) (Some (Farmer.username account))
    = Some account.
Proof.
  simpl. induction rows as [|f rows IH]; simpl; intros Hnew.
  - by rewrite bool_decide_eq_true_2.
  - apply not_elem_of_cons in Hnew as [Hne Hnew].
    rewrite bool_decide_eq_false_2; [by apply IH | congruence].
Qed.

Section account_properties.
Context {W : Werkzeug} {S : Storage}.

(** A valid submission with a free username creates the account. *)
Lemma register_new_account st sess form entropy u :
  RegisterForm.validate form = true →
  RegisterForm.username form = Some u →
  u ∉ map Farmer.username (farmers st) →
  ∃ password role,
    RegisterForm.password form = Some password ∧
    RegisterForm.role form = Some role ∧
    role ∈ RegisterForm.role_choices ∧
    register st sess POST form entropy
      = mkOutcome
          (mkState
             (farmers st ++
                [Farmer.mk (next_id (map Farmer.id (farmers st))) u
                   (generate_password_hash entropy password) role None])
             (rice_products st) (users st) (files st))
          sess [("Registered successfully!", "message")] (redirect "/login").
Proof.
  intros Hvalid Hu Hfree. unfold register. simpl. rewrite Hvalid, Hu.
  apply filter_by_username_None in Hfree as Hnone. rewrite Hnone.
  unfold RegisterForm.validate in Hvalid.
  apply andb_prop in Hvalid as [Hvalid Hrole].
  apply andb_prop in Hrole as [Hchoice _].
  apply andb_prop in Hvalid as [Hvalid _].
  apply andb_prop in Hvalid as [_ Hpw].
  apply DataRequired_Some in Hpw as [password Hpw].
  destruct (RegisterForm.role form) as [role|] eqn:Hrole; [|discriminate].
  apply bool_decide_eq_true in Hchoice.
  exists password, role. rewrite Hpw. simpl.
  by rewrite bool_decide_eq_false_2.
Qed.

(** The success response is given only to a valid submission with a free
    username. *)
Lemma register_success_inv st sess m form entropy :
  out_response (register st sess m form entropy) = redirect "/login" →
  m = POST ∧ RegisterForm.validate form = true ∧
  ∃ u, RegisterForm.username form = Some u ∧
       u ∉ map Farmer.username (farmers st).
Proof.
  unfold register.
  destruct m; simpl; [discriminate|].
  destruct (RegisterForm.validate form) eqn:Hvalid; [|discriminate].
  destruct (Farmer.filter_by_username _ _) eqn:Hfree; [discriminate|].
  destruct (RegisterForm.password form) as [password|]; [|discriminate].
  destruct (RegisterForm.username form) as [u|] eqn:Hu; [|discriminate].
  intros _. repeat split. exists u. split; [done|].
  by apply filter_by_username_None.
Qed.

(** C2: when an account with the submitted username exists, [/register]
    creates no row whatever else is submitted, and a valid submission is
    answered with the username-already-exists message.  When the username
    is free, a valid submission appends one account with a new id, the
    chosen role and the generated hash of the password as its password
    (a value other than the password itself for a hashing library that
    never returns its input), touches nothing else, and redirects to the
    login page. *)
Theorem register_spec st sess m form entropy u :
  RegisterForm.username form = Some u →
  (u ∈ map Farmer.username (farmers st) →
     out_state (register st sess m form entropy) = st ∧
     (validate_on_submit m (RegisterForm.validate form) = true →
        register st sess m form entropy
          = mkOutcome st sess
              [("Username already exists. Please choose another.", "error")]
              (redirect "/register"))) ∧
  (u ∉ map Farmer.username (farmers st) →
     validate_on_submit m (RegisterForm.validate form) = true →
     ∃ password role account,
       RegisterForm.password form = Some password ∧
       RegisterForm.role form = Some role ∧
       Farmer.username account = u ∧
       Farmer.password account = generate_password_hash entropy password ∧
       (WerkzeugHides W → Farmer.password account ≠ password) ∧
       Farmer.role account = role ∧
       (Farmer.id account ∉ map Farmer.id (farmers st)) ∧
       register st sess m form entropy
         = mkOutcome
             (mkState (farmers st ++ [account])
                (rice_products st) (users st) (files st))
             sess [("Registered successfully!", "message")]
             (redirect "/login")).
Proof.
  intros Hu. split.
  - intros Htaken.
    assert (∃ f, Farmer.filter_by_username (farmers st) (Some u) = Some f)
      as [existing Hexisting].
    { destruct (Farmer.filter_by_username (farmers st) (Some u)) eqn:Hfind;
        [eauto|]. by apply filter_by_username_None in Hfind. }
    unfold register. rewrite Hu, Hexisting.
    by destruct (validate_on_submit m (RegisterForm.validate form)).
  - intros Hfree Hvalid. destruct m; [discriminate|]. simpl in Hvalid.
    destruct (register_new_account st sess form entropy u Hvalid Hu Hfree)
      as (password & role & Hpw & Hrole & _ & Hout).
    exists password, role,
      (Farmer.mk (next_id (map Farmer.id (farmers st))) u
         (generate_password_hash entropy password) role None).
    rewrite Hout.
    split; [done|]. split; [done|]. simpl.
    split; [reflexivity|]. split; [reflexivity|].
    split; [intros Hhides; apply Hhides|]. split; [reflexivity|].
    split; [apply next_id_fresh | reflexivity].
Qed.

(** C6: a login submission whose username matches no account and one
    whose username matches an account but whose password fails the hash
    check get the same flashed message and the same template, rendered
    from nothing but the submitted form (so equal forms get equal
    responses); neither changes the session or the store. *)
Theorem login_failures_indistinguishable
    st1 st2 sess1 sess2 form1 form2 u1 farmer password :
  LoginForm.validate form1 = true →
  LoginForm.validate form2 = true →
  LoginForm.username form1 = Some u1 →
  u1 ∉ map Farmer.username (farmers st1) →
  Farmer.filter_by_username (farmers st2) (LoginForm.username form2)
    = Some farmer →
  LoginForm.password form2 = Some password →
  check_password_hash (Farmer.password farmer) password = false →
  let out1 := login st1 sess1 POST form1 in
  let out2 := login st2 sess2 POST form2 in
  out_flashes out1 = [("Invalid username or password", "error")] ∧
  out_flashes out2 = out_flashes out1 ∧
  out_response out1 = render_template "login.html" (ctx_login_form form1) ∧
  out_response out2 = render_template "login.html" (ctx_login_form form2) ∧
  (form1 = form2 → out_response out1 = out_response out2) ∧
  out_session out1 = sess1 ∧ out_session out2 = sess2 ∧
  out_state out1 = st1 ∧ out_state out2 = st2.
Proof.
  intros Hv1 Hv2 Hu1 Hnone Hsome Hpw Hcheck. unfold login. simpl.
  apply filter_by_username_None in Hnone.
  rewrite Hv1, Hv2, Hu1, Hnone, Hsome, Hpw, Hcheck. simpl.
  repeat (split; [reflexivity|]).
  split; [by intros ->|]. by repeat split.
Qed.

(** C7 as amended: a [/register] request that does not validate
    re-renders the registration form from the submitted data and flashes
    nothing; a valid submission whose username is taken flashes the
    username-already-exists message and redirects to [/register].  Neither
    changes the store or the session. *)
Theorem register_failure_outcomes st sess m form entropy :
  (validate_on_submit m (RegisterForm.validate form) = false →
     register st sess m form entropy
       = mkOutcome st sess []
           (render_template "register.html" (ctx_register_form form))) ∧
  (validate_on_submit m (RegisterForm.validate form) = true →
     ∀ user_exists,
       Farmer.filter_by_username (farmers st) (RegisterForm.username form)
         = Some user_exists →
       register st sess m form entropy
         = mkOutcome st sess
             [("Username already exists. Please choose another.", "error")]
             (redirect "/register")).
Proof.
  unfold register. split.
  - by intros ->.
  - by intros -> user_exists ->.
Qed.

(** C10 as amended: [/register] never changes the session.  After a
    successful registration, requested with a session that is anonymous or
    names an existing account, the current user is who it was before and is
    not the new account; the new account becomes the session's identity
    through a later [/login] with the registered credentials. *)
Theorem register_keeps_session st sess m form entropy :
  let out := register st sess m form entropy in
  out_session out = sess ∧
  (out_response out = redirect "/login" →
   session_issued st sess →
   ∃ account password,
     farmers (out_state out) = (farmers st ++ [account])%list ∧
     RegisterForm.username form = Some (Farmer.username account) ∧
     RegisterForm.password form = Some password ∧
     current_user (out_state out) (out_session out) = current_user st sess ∧
     current_user (out_state out) (out_session out) ≠ Some account ∧
     (WerkzeugVerifies W →
        out_session
          (login (out_state out) (out_session out) POST
             (LoginForm.mk true (RegisterForm.username form)
                (RegisterForm.password form)))
          = Some (Farmer.id account))).
Proof.
  simpl. split.
  { unfold register. repeat case_match; reflexivity. }
  intros Hok Hsess.
  apply register_success_inv in Hok as (-> & Hvalid & u & Hu & Hfree).
  destruct (register_new_account st sess form entropy u Hvalid Hu Hfree)
    as (password & role & Hpw & Hrole & _ & Hout).
  rewrite Hout. simpl.
  set (account := Farmer.mk _ u _ role None).
  exists account, password. split; [done|]. split; [done|]. split; [done|].
  assert (current_user
            (mkState (farmers st ++ [account]) (rice_products st)
               (users st) (files st)) sess = current_user st sess) as Hsame.
  { destruct sess as [uid|]; [|done]. simpl in *. unfold load_user. simpl.
    destruct (Farmer.query_get (farmers st) uid) as [f|] eqn:Hget.
    - by apply Farmer_query_get_app.
    - by apply Farmer_query_get_None in Hget. }
  split; [done|]. split.
  - rewrite Hsame. destruct sess as [uid|]; [|done]. simpl. unfold load_user.
    intros Hget. apply Farmer_query_get_Some in Hget as [Hin _].
    apply (list_elem_of_fmap_2 Farmer.id) in Hin.
    by apply next_id_fresh in Hin.
  - intros Hverifies. unfold login. simpl.
    assert (LoginForm.validate
              (LoginForm.mk true (RegisterForm.username form)
                 (RegisterForm.password form)) = true) as ->.
    { unfold RegisterForm.validate in Hvalid. unfold LoginForm.validate. simpl.
      apply andb_prop in Hvalid as [Hvalid _].
      apply andb_prop in Hvalid as [Hvalid _].
      apply andb_prop in Hvalid as [Hvalid ->].
      apply andb_prop in Hvalid as [_ ->]. done. }
    rewrite Hu, Hpw.
    pose proof (filter_by_username_app_new (farmers st) account Hfree) as Hfind.
    change (Farmer.username account) with u in Hfind. rewrite Hfind.
    simpl. by rewrite check_generate.
Qed.

End account_properties.

(** ** The executable Werkzeug instance meets both laws *)

Lemma string_length_append (a b : string) :
  String.length (a +:+ b) = String.length a + String.length b.
Proof. induction a as [|c a IH]; simpl; [done | by rewrite IH]. Qed.

Lemma split_dollar_append a b :
  WerkzeugModel.has_dollar a = false →
  WerkzeugModel.split_dollar (a +:+ "$" +:+ b) = Some (a, b).
Proof.
  induction a as [|c a IH]; simpl; [done|].
  intros Hno. apply orb_false_elim in Hno as [-> Hno]. by rewrite IH.
Qed.

Lemma salt_char_not_dollar n k :
  String.get n WerkzeugModel.SALT_CHARS = Some k →
  bool_decide (k = "$"%char) = false.
Proof.
  unfold WerkzeugModel.SALT_CHARS.
  do 62 (destruct n as [|n]; [by intros [= <-]|]). discriminate.
Qed.

Lemma gen_salt_no_dollar entropy :
  WerkzeugModel.has_dollar (WerkzeugModel.gen_salt entropy) = false.
Proof.
  induction entropy as [|c rest IH]; [done|].
  cbn [WerkzeugModel.gen_salt].
  destruct (String.get (nat_of_ascii c mod 62) WerkzeugModel.SALT_CHARS)
    as [k|] eqn:Hk; [|done].
  cbn [WerkzeugModel.has_dollar]. by rewrite (salt_char_not_dollar _ _ Hk).
Qed.

(** Whatever the digest, checking a generated hash against its password
    succeeds. *)
Lemma model_check_generate hash_internal entropy password :
  WerkzeugModel.check hash_internal
    (WerkzeugModel.generate hash_internal entropy password) password = true.
Proof.
  unfold WerkzeugModel.check, WerkzeugModel.generate.
  rewrite split_dollar_append by done.
  rewrite split_dollar_append by apply gen_salt_no_dollar.
  by apply bool_decide_eq_true_2.
Qed.

#[local] Instance model_verifies : WerkzeugVerifies WerkzeugModel.instance.
Proof. intros entropy password. apply model_check_generate. Qed.

#[local] Instance model_hides : WerkzeugHides WerkzeugModel.instance.
Proof.
  intros entropy password Heq. apply (f_equal String.length) in Heq.
  change (generate_password_hash entropy password)
    with (WerkzeugModel.generate WerkzeugModel.plain_digest entropy password)
    in Heq.
  unfold WerkzeugModel.generate, WerkzeugModel.plain_digest in Heq.
  rewrite !string_length_append in Heq.
  change (String.length WerkzeugModel.DEFAULT_METHOD) with 16 in Heq. lia.
Qed.

(** ** The unused [User] model *)

(** C8: on any [User] object, [set_password] with a password followed by
    [check_password] with the same password returns [True], for a hashing
    library whose generated hashes verify. *)
Theorem set_password_check_password `{!WerkzeugVerifies W}
    (self : User.t) (entropy password : string) :
  User.check_password (User.set_password self entropy password) password
    = Some true.
Proof.
  unfold User.check_password, User.set_password. simpl.
  by rewrite check_generate.
Qed.

Lemma set_password_check_password_witness :
  User.check_password (W := WerkzeugModel.instance)
    (User.set_password (W := WerkzeugModel.instance)
       (User.mk None (Some "bina") (Some "bina@example.org") None)
       "x9" "grain")
    "grain" = Some true
  ∧ User.check_password (W := WerkzeugModel.instance)
      (User.set_password (W := WerkzeugModel.instance)
         (User.mk None (Some "bina") (Some "bina@example.org") None)
         "x9" "grain")
      "chaff" = Some false.
Proof.
  split.
  - apply (set_password_check_password (W := WerkzeugModel.instance)
             (WerkzeugVerifies0 := model_verifies)).
  - vm_compute. reflexivity.
Defined.

(** ** The account properties on the example store *)

Lemma register_spec_witness :
  farmers
    (out_state (register (W := WerkzeugModel.instance) Examples.two_accounts
                  None POST (Examples.register_form "ravi" "husk" "buyer") "q1"))
    = [Examples.ravi; Examples.bina]
  ∧ ∃ account,
      farmers
        (out_state (register (W := WerkzeugModel.instance) Examples.two_accounts
                      None POST (Examples.register_form "chen" "millet" "buyer")
                      "q1"))
        = [Examples.ravi; Examples.bina; account]
      ∧ Farmer.role account = "buyer"
      ∧ Farmer.password account ≠ "millet".
Proof.
  destruct (register_spec (W := WerkzeugModel.instance) Examples.two_accounts
              None POST (Examples.register_form "ravi" "husk" "buyer") "q1"
              "ravi" eq_refl) as [Htaken _].
  destruct (register_spec (W := WerkzeugModel.instance) Examples.two_accounts
              None POST (Examples.register_form "chen" "millet" "buyer") "q1"
              "chen" eq_refl) as [_ Hfree].
  split.
  - destruct Htaken as [-> _]; [|reflexivity].
    apply elem_of_cons. by left.
  - destruct Hfree
      as (password & role & account & Hpw & Hrole & _ & _ & Hhides & Hr & _ & Hout).
    + simpl. rewrite !not_elem_of_cons.
      repeat split; try discriminate. apply not_elem_of_nil.
    + reflexivity.
    + exists account. rewrite Hout. split; [reflexivity|].
      injection Hpw as <-. injection Hrole as <-.
      split; [done | apply Hhides, model_hides].
Defined.

Lemma login_failures_indistinguishable_witness :
  out_flashes
    (login (W := WerkzeugModel.instance) Examples.two_accounts None POST
       (Examples.login_form "nobody" "paddy"))
  = out_flashes
      (login (W := WerkzeugModel.instance) Examples.two_accounts None POST
         (Examples.login_form "ravi" "husk"))
  ∧ out_session
      (login (W := WerkzeugModel.instance) Examples.two_accounts None POST
         (Examples.login_form "ravi" "husk")) = None.
Proof.
  destruct (login_failures_indistinguishable (W := WerkzeugModel.instance)
              Examples.two_accounts Examples.two_accounts None None
              (Examples.login_form "nobody" "paddy")
              (Examples.login_form "ravi" "husk")
              "nobody" Examples.ravi "husk")
    as (_ & Hflash & _ & _ & _ & _ & Hsess & _); try reflexivity.
  - simpl. rewrite !not_elem_of_cons.
    repeat split; try discriminate. apply not_elem_of_nil.
  - split; [by rewrite Hflash | done].
Defined.

(** C7, as stated, fails: a valid submission with a taken username is
    answered with a redirect to [/register], not with a rendered form. *)
Lemma register_duplicate_is_redirected :
  let out :=
    register (W := WerkzeugModel.instance) Examples.two_accounts None POST
      (Examples.register_form "ravi" "husk" "buyer") "q1" in
  farmers (out_state out) = farmers Examples.two_accounts ∧
  out_response out = redirect "/register" ∧
  ∀ template ctx, out_response out ≠ render_template template ctx.
Proof. vm_compute. repeat split. discriminate. Qed.

(** C7, as stated, fails on its other half too: a submission that does not
    validate is re-rendered without any flashed message. *)
Example register_invalid_flashes_nothing :
  register (W := WerkzeugModel.instance) Examples.two_accounts None POST
    (RegisterForm.mk true (Some "chen") (Some "millet") (Some "maize")
       (Some "buyer")) "q1"
  = mkOutcome Examples.two_accounts None []
      (render_template "register.html"
         (ctx_register_form
            (RegisterForm.mk true (Some "chen") (Some "millet") (Some "maize")
               (Some "buyer")))).
Proof. reflexivity. Qed.

Lemma register_failure_outcomes_witness :
  out_response
    (register (W := WerkzeugModel.instance) Examples.two_accounts None POST
       (Examples.register_form "ravi" "husk" "buyer") "q1")
    = redirect "/register"
  ∧ out_flashes
      (register (W := WerkzeugModel.instance) Examples.two_accounts None GET
         (Examples.register_form "ravi" "husk" "buyer") "q1") = [].
Proof.
  destruct (register_failure_outcomes (W := WerkzeugModel.instance)
              Examples.two_accounts None POST
              (Examples.register_form "ravi" "husk" "buyer") "q1")
    as [_ Htaken].
  destruct (register_failure_outcomes (W := WerkzeugModel.instance)
              Examples.two_accounts None GET
              (Examples.register_form "ravi" "husk" "buyer") "q1")
    as [Hinvalid _].
  split.
  - by rewrite (Htaken eq_refl Examples.ravi eq_refl).
  - by rewrite (Hinvalid eq_refl).
Defined.

Lemma register_keeps_session_witness :
  let out :=
    register (W := WerkzeugModel.instance) Examples.two_accounts (Some 2) POST
      (Examples.register_form "chen" "millet" "farmer") "q1" in
  out_session out = Some 2 ∧
  current_user (out_state out) (out_session out) = Some Examples.bina ∧
  out_session
    (login (W := WerkzeugModel.instance) (out_state out) (out_session out) POST
       (Examples.login_form "chen" "millet")) = Some 3.
Proof.
  destruct (register_keeps_session (W := WerkzeugModel.instance)
              Examples.two_accounts (Some 2) POST
              (Examples.register_form "chen" "millet" "farmer") "q1")
    as [Hsess Hsuccess].
  destruct Hsuccess
    as (account & password & Hrows & _ & _ & Huser & _ & Hlogin).
  - reflexivity.
  - simpl. apply elem_of_cons. right. apply elem_of_cons. by left.
  - split; [exact Hsess|]. split; [exact Huser|].
    transitivity (Some (Farmer.id account)); [exact (Hlogin model_verifies)|].
    vm_compute in Hrows. injection Hrows as <-. reflexivity.
Defined.

(** C10, as stated, fails: sent with a session whose id names no account
    yet, a successful registration leaves the session as it is, and the id
    now names the account just created, which is the current user without
    any [/login]. *)
Lemma register_stale_session_names_new_account :
  let out :=
    register (W := WerkzeugModel.instance) Examples.two_accounts (Some 3) POST
      (Examples.register_form "chen" "millet" "buyer") "q1" in
  current_user Examples.two_accounts (Some 3) = None ∧
  out_response out = redirect "/login" ∧
  out_session out = Some 3 ∧
  ∃ account,
    farmers (out_state out) = [Examples.ravi; Examples.bina; account] ∧
    Farmer.username account = "chen" ∧
    current_user (out_state out) (out_session out) = Some account.
Proof. vm_compute. split_and!; try done. eexists. by split_and!. Qed.

(** * Further properties of the routes *)

(** ** What one request can do to the tables *)

Section request_cases.
Context {W : Werkzeug} {S : Storage}.

(** [register] either leaves the store alone or appends the account built
    from a validated form. *)
Lemma register_cases st sess m form entropy :
  out_state (register st sess m form entropy) = st ∨
  ∃ u password role,
    RegisterForm.validate form = true ∧
    RegisterForm.username form = Some u ∧
    RegisterForm.password form = Some password ∧
    RegisterForm.role form = Some role ∧
    (u ∉ map Farmer.username (farmers st)) ∧
    out_state (register st sess m form entropy)
      = mkState
          (farmers st ++
             [Farmer.mk (next_id (map Farmer.id (farmers st))) u
                (generate_password_hash entropy password) role None])
          (rice_products st) (users st) (files st).
Proof.
  destruct m; [by left|].
  destruct (RegisterForm.validate form) eqn:Hvalid;
    [|left; unfold register; simpl; by rewrite Hvalid].
  assert (∃ u, RegisterForm.username form = Some u) as [u Hu].
  { unfold RegisterForm.validate in Hvalid.
    apply andb_prop in Hvalid as [Hvalid _]. apply andb_prop in Hvalid as [Hvalid _].
    apply andb_prop in Hvalid as [Hvalid _]. apply andb_prop in Hvalid as [_ Hname].
    by apply DataRequired_Some. }
  destruct (Farmer.filter_by_username (farmers st) (Some u)) eqn:Hfind.
  - left. unfold register. simpl. by rewrite Hvalid, Hu, Hfind.
  - right. apply filter_by_username_None in Hfind.
    destruct (register_new_account st sess form entropy u Hvalid Hu Hfind)
      as (password & role & Hpw & Hrole & _ & ->).
    by exists u, password, role.
Qed.

(** [sell_rice] never touches the accounts. *)
Lemma sell_rice_farmers st sess m form :
  farmers (out_state (sell_rice st sess m form)) = farmers st.
Proof. unfold sell_rice. repeat case_match; reflexivity. Qed.

(** [sell_rice] either leaves the product table alone or appends the row
    built from a validated form, owned by the logged-in farmer. *)
Lemma sell_rice_cases st sess m form :
  rice_products (out_state (sell_rice st sess m form)) = rice_products st ∨
  ∃ user n price_text price q filename,
    current_user st sess = Some user ∧
    Farmer.role user = "farmer" ∧
    SellRiceForm.validate form = true ∧
    SellRiceForm.name form = Some n ∧
    SellRiceForm.price form = Some price_text ∧
    to_float price_text = Some price ∧
    is_nan price = false ∧
    SellRiceForm.quantity form = Some q ∧
    rice_products (out_state (sell_rice st sess m form))
      = (rice_products st ++
           [RiceProduct.mk (next_id (map RiceProduct.id (rice_products st)))
              n (SellRiceForm.description form) price (integer_affinity q)
              filename (Farmer.id user)])%list.
Proof.
  destruct (current_user st sess) as [user|] eqn:Huser;
    [|left; unfold sell_rice; by rewrite Huser].
  destruct (decide (Farmer.role user = "farmer")) as [Hrole|Hrole];
    [|left; by rewrite (sell_rice_requires_farmer _ _ _ _ _ Huser Hrole)].
  destruct m; [left; unfold sell_rice; by rewrite Huser, Hrole|].
  destruct (SellRiceForm.validate form) eqn:Hvalid;
    [|left; unfold sell_rice; simpl; by rewrite Huser, Hrole, Hvalid].
  destruct (upload_image form (files st)) as [[filename files']|] eqn:Hupload;
    [|left; unfold sell_rice; simpl; by rewrite Huser, Hrole, Hvalid, Hupload].
  destruct (SellRiceForm_validate_fields form Hvalid)
    as (n & price_text & q & Hn & Hprice & Hq).
  destruct (to_float price_text) as [price|] eqn:Hfloat.
  - destruct (is_nan price) eqn:Hnan.
    + left. destruct price; try discriminate Hnan.
      rewrite (sell_rice_commit_fails st sess form user filename files'
                 price_text Huser Hrole Hvalid Hupload Hprice); [done | by right].
    + right. exists user, n, price_text, price, q, filename.
      destruct (sell_rice_commits st sess form user filename files' price_text
                  price Huser Hrole Hvalid Hupload Hprice Hfloat Hnan)
        as (n' & q' & Hn' & Hq' & ->).
      rewrite Hn in Hn'. rewrite Hq in Hq'.
      injection Hn' as <-. injection Hq' as <-. by split_and!.
  - left.
    rewrite (sell_rice_commit_fails st sess form user filename files'
               price_text Huser Hrole Hvalid Hupload Hprice); [done | by left].
Qed.

End request_cases.

(** ** Runs *)

Section runs.
Context {W : Werkzeug} {S : Storage}.

Lemma run_app st reqs1 reqs2 :
  run st (reqs1 ++ reqs2) = run (run st reqs1) reqs2.
Proof.
  revert st. induction reqs1 as [|[sess req] reqs1 IH]; intros st; simpl; auto.
Qed.

Lemma run_reachable st reqs : reachable st → reachable (run st reqs).
Proof.
  intros (fs & reqs0 & ->). exists fs, (reqs0 ++ reqs)%list. by rewrite run_app.
Qed.

(** What every request preserves, every run preserves. *)
Lemma run_preserves (P : State → Prop) :
  (∀ st sess req, P st → P (out_state (handle st sess req))) →
  ∀ reqs st, P st → P (run st reqs).
Proof.
  intros Hstep reqs. induction reqs as [|[sess req] reqs IH]; intros st Hst;
    simpl; [done|].
  by apply IH, Hstep.
Qed.

Lemma handle_rows_validated st sess req :
  rows_validated st → rows_validated (out_state (handle st sess req)).
Proof.
  intros [Hf Hp].
  destruct req as [|m form|m form entropy|m form|id| |id]; simpl;
    try (unfold login, product_details, profile, buy_now;
         repeat case_match; by split).
  - destruct (register_cases st sess m form entropy)
      as [-> | (u & pw & r & Hvalid & Hu & _ & _ & _ & ->)]; [by split|].
    split; [|done]. simpl. intros f Hin.
    apply elem_of_app in Hin as [Hin|Hin]; [by apply Hf|].
    apply list_elem_of_singleton in Hin as ->.
    change (WTForms.DataRequired (Some u) = true). rewrite <- Hu.
    unfold RegisterForm.validate in Hvalid.
    apply andb_prop in Hvalid as [Hvalid _]. apply andb_prop in Hvalid as [Hvalid _].
    apply andb_prop in Hvalid as [Hvalid _]. by apply andb_prop in Hvalid as [_ ?].
  - split; [by rewrite sell_rice_farmers|].
    destruct (sell_rice_cases st sess m form)
      as [-> | (user & n & pt & x & q & img & _ & _ & Hvalid & Hn & _ & _ & Hnan
                & _ & ->)];
      [done|].
    intros p Hin. apply elem_of_app in Hin as [Hin|Hin]; [by apply Hp|].
    apply list_elem_of_singleton in Hin as ->.
    cbn [RiceProduct.name RiceProduct.price]. split; [|done].
    rewrite <- Hn. unfold SellRiceForm.validate in Hvalid.
    apply andb_prop in Hvalid as [Hvalid _]. apply andb_prop in Hvalid as [Hvalid _].
    by apply andb_prop in Hvalid as [_ ?].
Qed.

Lemma handle_passwords_hashed st sess req :
  passwords_hashed st → passwords_hashed (out_state (handle st sess req)).
Proof.
  intros Hhashed.
  destruct req as [|m form|m form entropy|m form|id| |id]; simpl;
    try (unfold login, product_details, profile, buy_now;
         repeat case_match; done).
  - destruct (register_cases st sess m form entropy)
      as [-> | (u & pw & r & Hvalid & _ & Hpw & _ & _ & ->)]; [done|].
    intros f Hin. simpl in Hin.
    apply elem_of_app in Hin as [Hin|Hin]; [by apply Hhashed|].
    apply list_elem_of_singleton in Hin as ->. exists entropy, pw.
    split; [|done]. rewrite <- Hpw. unfold RegisterForm.validate in Hvalid.
    apply andb_prop in Hvalid as [Hvalid _]. apply andb_prop in Hvalid as [Hvalid _].
    by apply andb_prop in Hvalid as [_ ?].
  - unfold passwords_hashed. by rewrite sell_rice_farmers.
Qed.

Lemma reachable_passwords_hashed st : reachable st → passwords_hashed st.
Proof.
  intros (fs & reqs & ->). apply (run_preserves passwords_hashed).
  - apply handle_passwords_hashed.
  - intros f Hf. by apply elem_of_nil in Hf.
Qed.

Lemma reachable_rows_validated_aux st : reachable st → rows_validated st.
Proof.
  intros (fs & reqs & ->). apply (run_preserves rows_validated).
  - apply handle_rows_validated.
  - split; intros x Hx; by apply elem_of_nil in Hx.
Qed.

(** X1: a run of requests, whatever their sessions, takes a store that
    meets the declared keys (unique primary keys, unique usernames,
    [farmer_id] naming an account) to a store that meets them. *)
Theorem run_preserves_schema st reqs : schema_ok st → schema_ok (run st reqs).
Proof.
  apply (run_preserves schema_ok). intros st0 sess req.
  apply table_step_schema_ok, handle_step.
Qed.

(** X2: in a store the routes produced, no account username and no
    product name is blank (empty, or made of whitespace code points only),
    every account's role is [farmer] or [buyer], and every product's price
    is a number, never NaN. *)
Theorem reachable_rows_validated st :
  reachable st →
  rows_validated st ∧
  ∀ f, f ∈ farmers st → Farmer.role f = "farmer" ∨ Farmer.role f = "buyer".
Proof.
  intros Hreach. split; [by apply reachable_rows_validated_aux|].
  intros f Hf. apply (reachable_roles_declared st Hreach) in Hf.
  unfold RegisterForm.role_choices in Hf.
  apply elem_of_cons in Hf as [Hf|Hf]; [by left|].
  apply list_elem_of_singleton in Hf. by right.
Qed.

End runs.

Lemma run_preserves_schema_witness :
  schema_ok Examples.shop ∧
  schema_ok
    (run (W := WerkzeugModel.instance)
        (S := StorageModel.instance) Examples.shop
       [ (Some 1, req_sell_rice POST Examples.basmati_form);
         (None, req_register POST
                  (Examples.register_form "chen" "millet" "buyer") "q1") ]).
Proof.
  split; [apply example_shop_schema_ok|].
  apply (run_preserves_schema (W := WerkzeugModel.instance)),
    example_shop_schema_ok.
Defined.

Lemma reachable_rows_validated_witness :
  reachable (W := WerkzeugModel.instance) (S := StorageModel.instance)
    Examples.shop ∧
  WTForms.DataRequired (Some (Farmer.username Examples.bina)) = true ∧
  (Farmer.role Examples.bina = "farmer" ∨ Farmer.role Examples.bina = "buyer") ∧
  is_nan (RiceProduct.price Examples.basmati) = false.
Proof.
  split; [apply shop_reachable|].
  destruct (reachable_rows_validated (W := WerkzeugModel.instance)
              (S := StorageModel.instance)
              Examples.shop shop_reachable) as [[Hnames Hproducts] Hroles].
  split_and!.
  - apply Hnames. apply elem_of_cons. right. apply elem_of_cons. by left.
  - apply Hroles. apply elem_of_cons. right. apply elem_of_cons. by left.
  - apply Hproducts. by apply list_elem_of_singleton.
Defined.

(** ** Logging in *)

Lemma filter_by_username_unique rows f :
  NoDup (map Farmer.username rows) → f ∈ rows →
  Farmer.filter_by_username rows (Some (Farmer.username f)) = Some f.
Proof.
  simpl. induction rows as [|g rows IH]; simpl; intros Hnd Hin.
  - by apply elem_of_nil in Hin.
  - apply NoDup_cons in Hnd as [Hg Hnd]. case_bool_decide as Hname.
    + apply elem_of_cons in Hin as [->|Hin]; [done|].
      exfalso. apply Hg. rewrite Hname. by apply list_elem_of_fmap_2.
    + apply elem_of_cons in Hin as [->|Hin]; [done | by apply IH].
Qed.

Lemma Farmer_query_get_unique rows f :
  NoDup (map Farmer.id rows) → f ∈ rows →
  Farmer.query_get rows (Farmer.id f) = Some f.
Proof.
  unfold Farmer.query_get.
  induction rows as [|g rows IH]; simpl; intros Hnd Hin.
  - by apply elem_of_nil in Hin.
  - apply NoDup_cons in Hnd as [Hg Hnd]. case_bool_decide as Hid.
    + apply elem_of_cons in Hin as [->|Hin]; [done|].
      exfalso. apply Hg. rewrite Hid. by apply list_elem_of_fmap_2.
    + apply elem_of_cons in Hin as [->|Hin]; [done | by apply IH].
Qed.

Lemma Farmer_query_get_is_Some rows i :
  i ∈ map Farmer.id rows → is_Some (Farmer.query_get rows i).
Proof.
  intros Hin. destruct (Farmer.query_get rows i) eqn:Hget; [eauto|].
  by apply Farmer_query_get_None in Hget.
Qed.

Section login_properties.
Context {W : Werkzeug} {S : Storage}.

Lemma login_accepts st sess form farmer password :
  LoginForm.validate form = true →
  Farmer.filter_by_username (farmers st) (LoginForm.username form) = Some farmer →
  LoginForm.password form = Some password →
  check_password_hash (Farmer.password farmer) password = true →
  login st sess POST form
    = mkOutcome st (Some (Farmer.id farmer))
        [("Logged in successfully!", "message")] (redirect "/").
Proof.
  intros Hvalid Hfind Hpw Hcheck. unfold login. simpl.
  by rewrite Hvalid, Hfind, Hpw, Hcheck.
Qed.

(** X3: in a store that meets the declared keys, a valid login submission
    with the username of an account and a password its stored hash verifies
    sets the session to that account's id, flashes the success message and
    redirects to [/]; the store is unchanged and the next request sees that
    very account as the current user. *)
Theorem login_success st sess form farmer password :
  schema_ok st →
  farmer ∈ farmers st →
  LoginForm.validate form = true →
  LoginForm.username form = Some (Farmer.username farmer) →
  LoginForm.password form = Some password →
  check_password_hash (Farmer.password farmer) password = true →
  let out := login st sess POST form in
  out = mkOutcome st (Some (Farmer.id farmer))
          [("Logged in successfully!", "message")] (redirect "/") ∧
  current_user (out_state out) (out_session out) = Some farmer.
Proof.
  intros ((Hpk & _) & Huniq & _) Hin Hvalid Hu Hpw Hcheck. simpl.
  rewrite (login_accepts st sess form farmer password); try done.
  - split; [done|]. simpl. by apply Farmer_query_get_unique.
  - rewrite Hu. by apply filter_by_username_unique.
Qed.

(** X4: [/login] changes the session only for a submission whose password
    verifies against the stored hash of an account with the submitted
    username, and then to that account's id; in every other case the session
    is the one received and the response is not the redirect to [/]. *)
Theorem login_sound st sess m form :
  let out := login st sess m form in
  (out_session out = sess ∧ out_response out ≠ redirect "/") ∨
  (∃ farmer password,
     m = POST ∧ LoginForm.validate form = true ∧
     farmer ∈ farmers st ∧
     LoginForm.username form = Some (Farmer.username farmer) ∧
     LoginForm.password form = Some password ∧
     check_password_hash (Farmer.password farmer) password = true ∧
     out_session out = Some (Farmer.id farmer)).
Proof.
  unfold login. destruct m; simpl; [by left|].
  destruct (LoginForm.validate form) eqn:Hvalid; [|by left].
  destruct (Farmer.filter_by_username _ _) as [farmer|] eqn:Hfind; [|by left].
  destruct (LoginForm.password form) as [password|] eqn:Hpw; [|by left].
  destruct (check_password_hash _ _) eqn:Hcheck; [|by left].
  right. exists farmer, password.
  apply filter_by_username_Some in Hfind as [Hin Hu]. by split_and!.
Qed.

(** X5: no account of a store the routes produced is locked out: with a
    hashing library whose generated hashes verify, each account has a
    password with which [/login] accepts its username and sets the session
    to its id. *)
Theorem every_account_can_log_in `{!WerkzeugVerifies W} st farmer :
  reachable st →
  farmer ∈ farmers st →
  ∃ password, ∀ sess,
    login st sess POST
      (LoginForm.mk true (Some (Farmer.username farmer)) (Some password))
    = mkOutcome st (Some (Farmer.id farmer))
        [("Logged in successfully!", "message")] (redirect "/").
Proof.
  intros Hreach Hin.
  destruct (reachable_passwords_hashed st Hreach farmer Hin)
    as (entropy & password & Hpw & Hhash).
  destruct (reachable_schema_ok st Hreach) as (_ & Huniq & _).
  destruct (reachable_rows_validated_aux st Hreach) as [Hnames _].
  exists password. intros sess. apply (login_accepts _ _ _ farmer password).
  - unfold LoginForm.validate. simpl LoginForm.csrf_token.
    cbn [LoginForm.username LoginForm.password andb].
    by rewrite (Hnames farmer Hin), Hpw.
  - by apply filter_by_username_unique.
  - done.
  - rewrite Hhash. apply check_generate.
Qed.


(** X7: a browser that starts with an issued session (anonymous, or the id
    of an account) and sends back the cookie of each response keeps an issued
    session through any conversation: it is anonymous exactly when no
    current user is loaded. *)
Theorem browse_keeps_session_issued st sess reqs :
  session_issued st sess →
  let st' := (browse st sess reqs).1 in
  let sess' := (browse st sess reqs).2 in
  session_issued st' sess' ∧
  (sess' = None ↔ current_user st' sess' = None).
Proof.
  intros Hsess. simpl.
  pose proof (browse_session_issued reqs st sess Hsess) as Hissued.
  split; [done|].
  destruct (browse st sess reqs).2 as [uid|]; simpl in *; [|done].
  split; [discriminate|]. intros Hnone.
  apply Farmer_query_get_is_Some in Hissued as [f Hf].
  unfold load_user in Hnone. congruence.
Qed.

End login_properties.

Lemma login_success_witness :
  schema_ok Examples.shop ∧
  out_session
    (login (W := WerkzeugModel.instance) Examples.shop None POST
       (Examples.login_form "ravi" "paddy")) = Some 1.
Proof.
  split; [apply example_shop_schema_ok|].
  destruct (login_success (W := WerkzeugModel.instance) Examples.shop None
              (Examples.login_form "ravi" "paddy") Examples.ravi "paddy")
    as [-> _]; try reflexivity.
  - apply example_shop_schema_ok.
  - apply elem_of_cons. by left.
Defined.

Lemma every_account_can_log_in_witness :
  reachable (W := WerkzeugModel.instance)
      (S := StorageModel.instance) Examples.shop ∧
  ∃ password,
    out_session
      (login (W := WerkzeugModel.instance) Examples.shop None POST
         (LoginForm.mk true (Some "bina") (Some password))) = Some 2.
Proof.
  split; [apply shop_reachable|].
  destruct (every_account_can_log_in (W := WerkzeugModel.instance)
              (WerkzeugVerifies0 := model_verifies)
              Examples.shop Examples.bina shop_reachable) as [password Hlogin].
  - apply elem_of_cons. right. apply elem_of_cons. by left.
  - exists password. exact (f_equal out_session (Hlogin None)).
Defined.


Lemma browse_keeps_session_issued_witness :
  session_issued init_state None ∧
  (browse (W := WerkzeugModel.instance)
      (S := StorageModel.instance) init_state None
     [ req_register POST (Examples.register_form "ravi" "paddy" "farmer") "k3";
       req_login POST (Examples.login_form "ravi" "paddy");
       req_sell_rice POST Examples.basmati_form ]).2 ≠ None ∧
  session_issued
    (browse (W := WerkzeugModel.instance)
        (S := StorageModel.instance) init_state None
       [ req_register POST (Examples.register_form "ravi" "paddy" "farmer") "k3";
         req_login POST (Examples.login_form "ravi" "paddy");
         req_sell_rice POST Examples.basmati_form ]).1
    (browse (W := WerkzeugModel.instance)
        (S := StorageModel.instance) init_state None
       [ req_register POST (Examples.register_form "ravi" "paddy" "farmer") "k3";
         req_login POST (Examples.login_form "ravi" "paddy");
         req_sell_rice POST Examples.basmati_form ]).2.
Proof.
  split; [exact I|]. split; [vm_compute; discriminate|].
  apply (browse_keeps_session_issued (W := WerkzeugModel.instance)
           init_state None _ I).
Defined.

(** ** Profiles, ownership and plain requests *)

Section ownership_properties.
Context {W : Werkzeug} {S : Storage}.

(** X8: [/profile] shows a logged-in farmer exactly the products whose
    [farmer_id] is the farmer's id, in catalog order, and changes nothing;
    any other logged-in account is sent to [/] with a flash message. *)
Theorem profile_lists_own_products st sess user :
  current_user st sess = Some user →
  (Farmer.role user = "farmer" →
     ∃ listing,
       profile st sess
         = mkOutcome st sess []
             (render_template "profile.html" (ctx_products listing)) ∧
       (∀ p, p ∈ listing ↔
             p ∈ rice_products st ∧ RiceProduct.farmer_id p = Farmer.id user) ∧
       listing `sublist_of` rice_products st) ∧
  (Farmer.role user ≠ "farmer" →
     profile st sess
       = mkOutcome st sess [("You must be a farmer to view this page.", "message")]
           (redirect "/")).
Proof.
  intros Huser. unfold profile. rewrite Huser. split.
  - intros ->. simpl. eexists. split; [reflexivity|]. split.
    + intros p. unfold RiceProduct.filter_by_farmer_id.
      rewrite list_elem_of_filter. tauto.
    + apply sublist_filter.
  - intros Hrole. by rewrite bool_decide_eq_false_2.
Qed.

(** X9: in a store the routes produced, an account whose role is not
    [farmer] owns no product: the query behind its profile is empty. *)
Theorem non_farmers_own_nothing st account :
  reachable st →
  account ∈ farmers st →
  Farmer.role account ≠ "farmer" →
  RiceProduct.filter_by_farmer_id (rice_products st) (Farmer.id account) = [].
Proof.
  intros Hreach Hin Hrole.
  destruct (reachable_schema_ok st Hreach) as ((Hpk & _) & _ & _).
  pose proof (reachable_owners_are_farmers st Hreach) as Hown.
  apply elem_of_nil_inv. intros p Hp.
  unfold RiceProduct.filter_by_farmer_id in Hp.
  apply list_elem_of_filter in Hp as [Hid Hp].
  destruct (Hown p Hp) as (owner & Hoin & Hoid & Horole).
  assert (owner = account) as ->; [|done].
  pose proof (Farmer_query_get_unique _ _ Hpk Hoin) as Hget1.
  pose proof (Farmer_query_get_unique _ _ Hpk Hin) as Hget2.
  rewrite Hoid, Hid in Hget1. congruence.
Qed.

(** X10: only form submissions write: a request that is not a [POST] of a
    form leaves the store and the session as they were, whichever route it
    goes to and whoever sends it. *)
Theorem get_requests_keep_store st sess req :
  is_submission req = false →
  out_state (handle st sess req) = st ∧
  out_session (handle st sess req) = sess.
Proof.
  destruct req as [|m form|m form entropy|m form|id| |id]; simpl;
    try destruct m; try discriminate; intros _;
    unfold index, login, register, sell_rice, product_details, profile, buy_now;
    simpl; repeat case_match; by split.
Qed.

(** X11: in a consistent store a logged-in buyer gets 404 from [/buy_now]
    for an id of at most 2^63 - 1 exactly when no product has the id; for a
    larger id, which no product has, the answer is 500. *)
Theorem buy_now_404_iff_product_missing st sess id user :
  schema_ok st →
  current_user st sess = Some user →
  Farmer.role user = "buyer" →
  (binds_as_integer id = true →
     out_response (buy_now st sess id) = abort 404
     ↔ id ∉ map RiceProduct.id (rice_products st)) ∧
  (binds_as_integer id = false →
     id ∉ map RiceProduct.id (rice_products st) →
     buy_now st sess id = mkOutcome st sess [] (abort 500)).
Proof.
  intros (_ & _ & Hfk) Huser Hrole. unfold buy_now. rewrite Huser, Hrole. simpl.
  split.
  - intros Hbinds. unfold get_or_404. rewrite Hbinds.
    destruct (RiceProduct.query_get (rice_products st) id) as [product|] eqn:Hget.
    + apply RiceProduct_query_get_Some in Hget as [Hin Hid].
      destruct (Farmer.query_get (farmers st) (RiceProduct.farmer_id product))
        as [farmer|] eqn:Hfarmer.
      * simpl. split; [discriminate|]. intros Hmissing. exfalso.
        apply Hmissing. rewrite <- Hid. by apply list_elem_of_fmap_2.
      * apply Farmer_query_get_None in Hfarmer. by apply Hfk in Hin.
    + simpl. split; [intros _; by apply RiceProduct_query_get_None | done].
  - intros Hbinds Hmissing.
    by rewrite (get_or_404_missing _ _ Hmissing), Hbinds.
Qed.

End ownership_properties.

Lemma profile_lists_own_products_witness :
  current_user Examples.shop (Some 1) = Some Examples.ravi ∧
  out_response (profile Examples.shop (Some 1))
    = render_template "profile.html" (ctx_products [Examples.basmati]) ∧
  out_response (profile Examples.shop (Some 2)) = redirect "/".
Proof.
  split; [reflexivity|].
  destruct (profile_lists_own_products Examples.shop (Some 1) Examples.ravi
              eq_refl) as [Hfarmer _].
  destruct (profile_lists_own_products Examples.shop (Some 2) Examples.bina
              eq_refl) as [_ Hbuyer].
  split.
  - destruct (Hfarmer eq_refl) as (listing & Hout & _ & _).
    rewrite Hout in *. vm_compute in Hout. injection Hout as <-. reflexivity.
  - rewrite Hbuyer; [reflexivity | discriminate].
Defined.

Lemma non_farmers_own_nothing_witness :
  reachable (W := WerkzeugModel.instance)
      (S := StorageModel.instance) Examples.shop ∧
  Farmer.role Examples.bina ≠ "farmer" ∧
  RiceProduct.filter_by_farmer_id (rice_products Examples.shop) 2 = [].
Proof.
  split; [apply shop_reachable|]. split; [discriminate|].
  apply (non_farmers_own_nothing (W := WerkzeugModel.instance)
           Examples.shop Examples.bina shop_reachable).
  - apply elem_of_cons. right. apply elem_of_cons. by left.
  - discriminate.
Defined.

Lemma get_requests_keep_store_witness :
  is_submission (req_sell_rice GET Examples.basmati_form) = false ∧
  out_state
    (handle (W := WerkzeugModel.instance)
        (S := StorageModel.instance) Examples.two_accounts (Some 1)
       (req_sell_rice GET Examples.basmati_form))
    = Examples.two_accounts.
Proof.
  split; [reflexivity|].
  apply (get_requests_keep_store (W := WerkzeugModel.instance)
           Examples.two_accounts (Some 1)
           (req_sell_rice GET Examples.basmati_form) eq_refl).
Defined.

Lemma buy_now_404_iff_product_missing_witness :
  schema_ok Examples.shop ∧
  out_response (buy_now Examples.shop (Some 2) 4) = abort 404 ∧
  out_response (buy_now Examples.shop (Some 2) 1) ≠ abort 404 ∧
  out_response (buy_now Examples.shop (Some 2) Examples.huge_id) = abort 500.
Proof.
  split; [apply example_shop_schema_ok|].
  destruct (buy_now_404_iff_product_missing Examples.shop (Some 2) 4
              Examples.bina example_shop_schema_ok eq_refl eq_refl)
    as [Hsmall _].
  destruct (buy_now_404_iff_product_missing Examples.shop (Some 2) 1
              Examples.bina example_shop_schema_ok eq_refl eq_refl)
    as [Hone _].
  destruct (buy_now_404_iff_product_missing Examples.shop (Some 2)
              Examples.huge_id Examples.bina example_shop_schema_ok
              eq_refl eq_refl) as [_ Hhuge].
  split_and!.
  - apply (Hsmall eq_refl). simpl. intros Hin.
    apply list_elem_of_singleton in Hin. discriminate.
  - intros H404. apply (Hone eq_refl) in H404.
    apply H404. simpl. by apply list_elem_of_singleton.
  - by rewrite (Hhuge huge_id_does_not_bind huge_id_is_no_product).
Defined.

(** ** Rows are only ever appended *)

Section append_only.
Context {W : Werkzeug} {S : Storage}.

Lemma table_step_appends st st' :
  table_step st st' →
  ∃ new_farmers new_products,
    farmers st' = (farmers st ++ new_farmers)%list ∧
    rice_products st' = (rice_products st ++ new_products)%list ∧
    (length new_farmers + length new_products ≤ 1)%nat.
Proof.
  intros [Hf Hp | u p r Hf _ _ Hp | owner n d pr q img _ _ Hp Hf].
  - exists [], []. rewrite Hf, Hp, !app_nil_r.
    split_and!; [reflexivity | reflexivity | simpl; lia].
  - rewrite Hf, Hp. eexists _, [].
    split_and!; [reflexivity | by rewrite app_nil_r | simpl; lia].
  - rewrite Hf, Hp. eexists [], _.
    split_and!; [by rewrite app_nil_r | reflexivity | simpl; lia].
Qed.

(** X12: a run of requests never changes or removes a row: the accounts
    and products it starts from are the leading rows of the tables it ends
    with, and it appends at most one row per request. *)
Theorem run_keeps_rows st reqs :
  ∃ new_farmers new_products,
    farmers (run st reqs) = (farmers st ++ new_farmers)%list ∧
    rice_products (run st reqs) = (rice_products st ++ new_products)%list ∧
    (length new_farmers + length new_products ≤ length reqs)%nat.
Proof.
  revert st. induction reqs as [|[sess req] reqs IH]; intros st; simpl.
  - exists [], []. rewrite !app_nil_r. split_and!; [done | done | simpl; lia].
  - destruct (table_step_appends _ _ (handle_step st sess req))
      as (fs1 & ps1 & Hf1 & Hp1 & Hlen1).
    destruct (IH (out_state (handle st sess req)))
      as (fs2 & ps2 & Hf2 & Hp2 & Hlen2).
    exists (fs1 ++ fs2)%list, (ps1 ++ ps2)%list.
    rewrite Hf2, Hp2, Hf1, Hp1, <- !app_assoc, !length_app.
    split_and!; [done | done | lia].
Qed.

(** X13: a product of a store the routes produced keeps its page: after
    any further requests [/product/<id>] still renders that very row, and the
    catalog still lists it. *)
Theorem product_page_is_stable st product reqs sess :
  reachable st →
  product ∈ rice_products st →
  product_details (run st reqs) sess (RiceProduct.id product)
    = mkOutcome (run st reqs) sess []
        (render_template "product_details.html" (ctx_product product)) ∧
  ∃ listing,
    out_response (index (run st reqs) sess)
      = render_template "index.html" (ctx_products listing) ∧
    product ∈ listing.
Proof.
  intros Hreach Hin.
  destruct (run_keeps_rows st reqs) as (fs & ps & _ & Hp & _).
  assert (product ∈ rice_products (run st reqs)) as Hin'.
  { rewrite Hp. apply elem_of_app. by left. }
  destruct (reachable_schema_ok _ (run_reachable st reqs Hreach))
    as ((_ & Hpk) & _ & _).
  split.
  - unfold product_details.
    by rewrite (get_or_404_found _ _ Hpk Hin').
  - eexists. split; [reflexivity | done].
Qed.

End append_only.

Lemma product_page_is_stable_witness :
  reachable (W := WerkzeugModel.instance)
      (S := StorageModel.instance) Examples.shop ∧
  out_response
    (product_details
       (run (W := WerkzeugModel.instance)
           (S := StorageModel.instance) Examples.shop
          [ (Some 1, req_sell_rice POST Examples.basmati_form);
            (None, req_register POST
                     (Examples.register_form "chen" "millet" "buyer") "q1") ])
       None 1)
    = render_template "product_details.html" (ctx_product Examples.basmati).
Proof.
  split; [apply shop_reachable|].
  destruct (product_page_is_stable (W := WerkzeugModel.instance) Examples.shop
              Examples.basmati
              [ (Some 1, req_sell_rice POST Examples.basmati_form);
                (None, req_register POST
                         (Examples.register_form "chen" "millet" "buyer") "q1") ]
              None shop_reachable) as [Hpage _].
  - by apply list_elem_of_singleton.
  - exact (f_equal out_response Hpage).
Defined.

(** ** Uploads and prices that are not numbers *)

Section upload_properties.
Context {W : Werkzeug} {S : Storage}.

(** A path that was saved to can be saved to again. *)
Lemma FileStorage_save_again file1 file2 dst fs fs1 :
  FileStorage_save file1 dst fs = Some fs1 →
  FileStorage_save file2 dst fs1
    = Some (<[dst := regular (FileStorage.stream file2)]> fs1).
Proof.
  intros Hsave. pose proof (FileStorage_save_Some _ _ _ _ Hsave) as ->.
  unfold FileStorage_save in *.
  destruct (negb (Py.truthy dst) || Py.endswith "/" dst); [discriminate|].
  rewrite lookup_insert_eq.
  destruct (is_directory fs (Py.dirname dst)) eqn:Hdir;
    [|by repeat case_match].
  assert (is_directory (<[dst := regular (FileStorage.stream file1)]> fs)
            (Py.dirname dst) = true) as ->; [|done].
  unfold is_directory in *.
  destruct (Py.drop_slashes (Py.dirname dst)); [done|].
  destruct (decide (dst = Py.dirname dst)) as [Heq|Hne].
  - rewrite <- Heq in Hdir. by destruct (fs !! dst) as [[]|].
  - by rewrite lookup_insert_ne.
Qed.

Lemma state_eta st :
  mkState (farmers st) (rice_products st) (users st) (files st) = st.
Proof. by destruct st. Qed.

(** X14: a valid submission of a logged-in farmer with an image attached
    answers 500 and stores nothing when the file cannot be saved.  When it
    can, the stream is written under the uploads directory at the secured
    name and no other path changes; then a price that is not a number
    makes the answer 500 with the file written and no product row, and a
    price that is one appends a single product whose image column holds the
    secured name only. *)
Theorem sell_rice_upload st sess form user file price_text :
  current_user st sess = Some user →
  Farmer.role user = "farmer" →
  SellRiceForm.validate form = true →
  SellRiceForm.image form = Some file →
  FileStorage.truthy file = true →
  SellRiceForm.price form = Some price_text →
  let out := sell_rice st sess POST form in
  (FileStorage_save file (upload_path file) (files st) = None →
     out = mkOutcome st sess [] (abort 500)) ∧
  (∀ files',
     FileStorage_save file (upload_path file) (files st) = Some files' →
     files (out_state out)
       = <[upload_path file := regular (FileStorage.stream file)]> (files st) ∧
     (to_float price_text = None ∨ to_float price_text = Some S754_nan →
        out_response out = abort 500 ∧
        rice_products (out_state out) = rice_products st) ∧
     (∀ price,
        to_float price_text = Some price → is_nan price = false →
        out_response out = redirect "/" ∧
        ∃ product,
          rice_products (out_state out) = (rice_products st ++ [product])%list ∧
          RiceProduct.image product
            = Some (secure_filename (FileStorage.filename file)) ∧
          RiceProduct.price product = price ∧
          RiceProduct.farmer_id product = Farmer.id user)).
Proof.
  intros Huser Hrole Hvalid Himage Htruthy Hprice. split.
  - intros Hsave. simpl. unfold sell_rice, upload_image.
    rewrite Huser, Hrole, Himage, Htruthy. simpl. rewrite Hvalid.
    unfold upload_path in Hsave. by rewrite Hsave.
  - intros files' Hsave. simpl.
    pose proof (upload_image_saved form file _ _ Himage Htruthy Hsave)
      as Hupload.
    apply FileStorage_save_Some in Hsave as Hfiles. subst files'.
    split_and!.
    + destruct (to_float price_text) as [price|] eqn:Hfloat.
      * destruct (is_nan price) eqn:Hnan.
        -- destruct price; try discriminate Hnan.
           rewrite (sell_rice_commit_fails _ _ _ _ _ _ _ Huser Hrole Hvalid
                      Hupload Hprice); [done | by right].
        -- by destruct (sell_rice_commits _ _ _ _ _ _ _ _ Huser Hrole Hvalid
                          Hupload Hprice Hfloat Hnan) as (n & q & _ & _ & ->).
      * rewrite (sell_rice_commit_fails _ _ _ _ _ _ _ Huser Hrole Hvalid
                   Hupload Hprice); [done | by left].
    + intros Hbad.
      by rewrite (sell_rice_commit_fails _ _ _ _ _ _ _ Huser Hrole Hvalid
                    Hupload Hprice Hbad).
    + intros price Hfloat Hnan.
      destruct (sell_rice_commits _ _ _ _ _ _ _ _ Huser Hrole Hvalid
                  Hupload Hprice Hfloat Hnan) as (n & q & _ & _ & ->).
      split; [done|]. eexists. by split_and!.
Qed.

(** X15: two uploads whose client names are secured to the same name
    collide: after two such submissions with prices that are numbers, both
    new products point at the one file name, and the file holds the stream
    of the second upload. *)
Theorem upload_collision_overwrites
    st sess1 sess2 form1 form2 user1 user2 file1 file2 files1
    text1 text2 price1 price2 :
  current_user st sess1 = Some user1 → Farmer.role user1 = "farmer" →
  current_user st sess2 = Some user2 → Farmer.role user2 = "farmer" →
  SellRiceForm.validate form1 = true → SellRiceForm.validate form2 = true →
  SellRiceForm.image form1 = Some file1 → FileStorage.truthy file1 = true →
  SellRiceForm.image form2 = Some file2 → FileStorage.truthy file2 = true →
  SellRiceForm.price form1 = Some text1 → to_float text1 = Some price1 →
  is_nan price1 = false →
  SellRiceForm.price form2 = Some text2 → to_float text2 = Some price2 →
  is_nan price2 = false →
  secure_filename (FileStorage.filename file1)
    = secure_filename (FileStorage.filename file2) →
  FileStorage_save file1 (upload_path file1) (files st) = Some files1 →
  let st1 := out_state (sell_rice st sess1 POST form1) in
  let st2 := out_state (sell_rice st1 sess2 POST form2) in
  files st2 !! upload_path file1 = Some (regular (FileStorage.stream file2)) ∧
  ∃ product1 product2,
    rice_products st2 = (rice_products st ++ [product1; product2])%list ∧
    RiceProduct.image product1
      = Some (secure_filename (FileStorage.filename file1)) ∧
    RiceProduct.image product2 = RiceProduct.image product1.
Proof.
  intros Hu1 Hr1 Hu2 Hr2 Hv1 Hv2 Hi1 Ht1 Hi2 Ht2 Hp1 Hf1 Hn1 Hp2 Hf2 Hn2
    Hsame Hsave1. simpl.
  pose proof (upload_image_saved form1 file1 _ _ Hi1 Ht1 Hsave1) as Hup1.
  destruct (sell_rice_commits _ _ _ _ _ _ _ _ Hu1 Hr1 Hv1 Hup1 Hp1 Hf1 Hn1)
    as (n1 & q1 & _ & _ & ->). simpl.
  set (st1 := mkState (farmers st) _ (users st) files1).
  assert (upload_path file2 = upload_path file1) as Hpath.
  { unfold upload_path. by rewrite Hsame. }
  pose proof (FileStorage_save_again file1 file2 _ _ _ Hsave1) as Hsave2.
  rewrite <- Hpath in Hsave2.
  pose proof (upload_image_saved form2 file2 (files st1) _ Hi2 Ht2 Hsave2)
    as Hup2.
  destruct (sell_rice_commits st1 sess2 form2 user2 _ _ _ _ Hu2 Hr2 Hv2 Hup2
              Hp2 Hf2 Hn2) as (n2 & q2 & _ & _ & ->). simpl.
  split.
  - rewrite Hpath. apply lookup_insert_eq.
  - eexists _, _. rewrite <- app_assoc. split; [reflexivity|].
    simpl. split; [done | by rewrite Hsame].
Qed.

(** X16: a valid submission without an image, sent by a logged-in farmer,
    whose price text [float()] rejects or turns into NaN is answered with
    500 and changes nothing: the form's validators do not look at the
    price, the commit does. *)
Theorem sell_rice_price_not_a_number st sess form user price_text :
  current_user st sess = Some user →
  Farmer.role user = "farmer" →
  SellRiceForm.validate form = true →
  SellRiceForm.image_truthy form = false →
  SellRiceForm.price form = Some price_text →
  to_float price_text = None ∨ to_float price_text = Some S754_nan →
  sell_rice st sess POST form = mkOutcome st sess [] (abort 500).
Proof.
  intros Huser Hrole Hvalid Himage Hprice Hbad.
  rewrite (sell_rice_commit_fails st sess form user None (files st) price_text
             Huser Hrole Hvalid (upload_image_absent _ _ Himage) Hprice Hbad).
  by rewrite state_eta.
Qed.

End upload_properties.

Lemma sell_rice_upload_witness :
  current_user UploadExamples.stocked (Some 1) = Some Examples.ravi ∧
  upload_path (W := WerkzeugModel.instance) UploadExamples.photo
    = "static/uploads/basmati.png" ∧
  files
    (out_state
       (sell_rice (W := WerkzeugModel.instance) (S := StorageModel.instance)
          UploadExamples.stocked (Some 1)
          POST (UploadExamples.form_with UploadExamples.photo "120.5")))
    !! "static/uploads/basmati.png" = Some (regular "PNG-1") ∧
  out_response
    (sell_rice (W := WerkzeugModel.instance) (S := StorageModel.instance)
       Examples.two_accounts (Some 1)
       POST (UploadExamples.form_with UploadExamples.photo "120.5"))
    = abort 500.
Proof.
  split; [reflexivity|]. split; [reflexivity|].
  destruct (sell_rice_upload (W := WerkzeugModel.instance)
              (S := StorageModel.instance)
              UploadExamples.stocked (Some 1)
              (UploadExamples.form_with UploadExamples.photo "120.5")
              Examples.ravi UploadExamples.photo "120.5"
              eq_refl eq_refl eq_refl eq_refl eq_refl eq_refl)
    as [_ Hsaved].
  destruct (sell_rice_upload (W := WerkzeugModel.instance)
              (S := StorageModel.instance)
              Examples.two_accounts (Some 1)
              (UploadExamples.form_with UploadExamples.photo "120.5")
              Examples.ravi UploadExamples.photo "120.5"
              eq_refl eq_refl eq_refl eq_refl eq_refl eq_refl)
    as [Hfailed _].
  split.
  - destruct (Hsaved _ eq_refl) as (-> & _ & _). reflexivity.
  - by rewrite (Hfailed eq_refl).
Defined.

Lemma upload_collision_overwrites_witness :
  secure_filename (Werkzeug := WerkzeugModel.instance)
    (FileStorage.filename UploadExamples.photo)
  = secure_filename (Werkzeug := WerkzeugModel.instance)
      (FileStorage.filename UploadExamples.other_photo) ∧
  files
    (out_state
       (sell_rice (W := WerkzeugModel.instance) (S := StorageModel.instance)
          (out_state
             (sell_rice (W := WerkzeugModel.instance)
                (S := StorageModel.instance) UploadExamples.stocked
                (Some 1) POST
                (UploadExamples.form_with UploadExamples.photo "120.5")))
          (Some 1) POST
          (UploadExamples.form_with UploadExamples.other_photo "99")))
    !! "static/uploads/basmati.png" = Some (regular "PNG-2").
Proof.
  split; [reflexivity|].
  destruct (upload_collision_overwrites (W := WerkzeugModel.instance)
              (S := StorageModel.instance)
              UploadExamples.stocked (Some 1) (Some 1)
              (UploadExamples.form_with UploadExamples.photo "120.5")
              (UploadExamples.form_with UploadExamples.other_photo "99")
              Examples.ravi Examples.ravi
              UploadExamples.photo UploadExamples.other_photo _
              "120.5" "99" _ _
              eq_refl eq_refl eq_refl eq_refl eq_refl eq_refl
              eq_refl eq_refl eq_refl eq_refl eq_refl eq_refl eq_refl
              eq_refl eq_refl eq_refl eq_refl eq_refl)
    as [Hfile _].
  exact Hfile.
Defined.

Lemma sell_rice_price_not_a_number_witness :
  to_float (Storage := StorageModel.instance) "abc" = None ∧
  to_float (Storage := StorageModel.instance) "nan" = Some S754_nan ∧
  sell_rice (W := WerkzeugModel.instance) (S := StorageModel.instance)
    Examples.two_accounts (Some 1) POST (Examples.priced_form "abc")
  = mkOutcome Examples.two_accounts (Some 1) [] (abort 500) ∧
  sell_rice (W := WerkzeugModel.instance) (S := StorageModel.instance)
    Examples.two_accounts (Some 1) POST (Examples.priced_form "nan")
  = mkOutcome Examples.two_accounts (Some 1) [] (abort 500).
Proof.
  split; [reflexivity|]. split; [reflexivity|]. split.
  - apply (sell_rice_price_not_a_number (W := WerkzeugModel.instance)
             (S := StorageModel.instance) Examples.two_accounts (Some 1)
             (Examples.priced_form "abc") Examples.ravi "abc");
      try reflexivity. by left.
  - apply (sell_rice_price_not_a_number (W := WerkzeugModel.instance)
             (S := StorageModel.instance) Examples.two_accounts (Some 1)
             (Examples.priced_form "nan") Examples.ravi "nan");
      try reflexivity. by right.
Defined.

(** ** Requests in sequence *)

(** A conjunction of checks with a failed check in it fails. *)
Ltac conj_false :=
  repeat first [rewrite andb_false_r | rewrite andb_false_l]; reflexivity.

Section sequences.
Context {W : Werkzeug} {S : Storage}.

(** X17: once a registration has succeeded, any later valid submission
    with the same username, whatever its password and role, is turned away
    with the username-already-exists message and stores nothing. *)
Theorem register_twice_rejected st sess1 sess2 form1 form2 entropy1 entropy2 :
  out_response (register st sess1 POST form1 entropy1) = redirect "/login" →
  RegisterForm.validate form2 = true →
  RegisterForm.username form2 = RegisterForm.username form1 →
  let st1 := out_state (register st sess1 POST form1 entropy1) in
  register st1 sess2 POST form2 entropy2
    = mkOutcome st1 sess2
        [("Username already exists. Please choose another.", "error")]
        (redirect "/register").
Proof.
  intros Hok Hvalid2 Hsame. simpl.
  apply register_success_inv in Hok as (_ & Hvalid1 & u & Hu & Hfree).
  destruct (register_new_account st sess1 form1 entropy1 u Hvalid1 Hu Hfree)
    as (password & role & _ & _ & _ & ->). simpl.
  set (account := Farmer.mk _ u _ role None).
  pose proof (filter_by_username_app_new (farmers st) account Hfree) as Hfind.
  change (Farmer.username account) with u in Hfind.
  unfold register. simpl. by rewrite Hvalid2, Hsame, Hu, Hfind.
Qed.

(** X18: after a farmer's submission to [/sell_rice] has succeeded, the
    farmer's profile shows the products it showed before followed by one new
    product of that farmer. *)
Theorem sell_rice_then_profile st sess form user :
  current_user st sess = Some user →
  Farmer.role user = "farmer" →
  out_response (sell_rice st sess POST form) = redirect "/" →
  let out := sell_rice st sess POST form in
  ∃ product,
    RiceProduct.farmer_id product = Farmer.id user ∧
    profile (out_state out) (out_session out)
      = mkOutcome (out_state out) (out_session out) []
          (render_template "profile.html"
             (ctx_products
                (RiceProduct.filter_by_farmer_id (rice_products st)
                   (Farmer.id user) ++ [product])%list)).
Proof.
  intros Huser Hrole. simpl. unfold sell_rice. rewrite Huser, Hrole. simpl.
  destruct (SellRiceForm.validate form); [|discriminate].
  destruct (upload_image form (files st)) as [[filename files']|];
    [|discriminate].
  destruct (RiceProduct.add_commit _ _ _ _ _ _ _) as [products'|] eqn:Hadd;
    [|discriminate].
  intros _. unfold RiceProduct.add_commit in Hadd.
  destruct (SellRiceForm.name form) as [n|]; [|discriminate].
  destruct (SellRiceForm.price form) as [pr|]; [|discriminate].
  destruct (SellRiceForm.quantity form) as [q|]; [|discriminate].
  simpl in Hadd. destruct (to_float pr) as [x|]; [|discriminate].
  simpl in Hadd. destruct (is_nan x); [discriminate|].
  injection Hadd as <-. eexists. split; [|].
  2:{ unfold profile. simpl out_state. simpl out_session.
      change (current_user (mkState (farmers st) _ (users st) files') sess)
        with (current_user st sess).
      rewrite Huser, Hrole. simpl.
      unfold RiceProduct.filter_by_farmer_id. rewrite filter_app.
      rewrite filter_cons_True by done. reflexivity. }
  reflexivity.
Qed.

(** X19: [/register] stores nothing and re-renders the form when the two
    passwords differ, when the role is neither [farmer] nor [buyer], or when
    the username or the password is absent, empty, or made of whitespace
    code points only (U+00A0 and the other Unicode blanks included). *)
Theorem register_rejects_invalid st sess m form entropy :
  RegisterForm.confirm_password form ≠ RegisterForm.password form ∨
  (∀ r, RegisterForm.role form = Some r → r ≠ "farmer" ∧ r ≠ "buyer") ∨
  (∀ u, RegisterForm.username form = Some u → Py.strip u = "") ∨
  (∀ p, RegisterForm.password form = Some p → Py.strip p = "") →
  register st sess m form entropy
    = mkOutcome st sess []
        (render_template "register.html" (ctx_register_form form)).
Proof.
  intros Hbad.
  assert (∀ data, (∀ s, data = Some s → Py.strip s = "") →
                  WTForms.DataRequired data = false) as Hblank.
  { intros [s|] Hs; [|done]. simpl. rewrite (Hs s eq_refl).
    apply andb_false_r. }
  assert (RegisterForm.validate form = false) as Hinvalid.
  { unfold RegisterForm.validate.
    destruct Hbad as [Hdiff | [Hrole | [Huser | Hpw]]].
    - unfold WTForms.EqualTo. rewrite (bool_decide_eq_false_2 _ Hdiff).
      conj_false.
    - assert (WTForms.valid_choice RegisterForm.role_choices
                (RegisterForm.role form) = false) as ->; [|conj_false].
      destruct (RegisterForm.role form) as [r|]; [|done]. simpl.
      apply bool_decide_eq_false_2. destruct (Hrole r eq_refl) as [Hf Hb].
      unfold RegisterForm.role_choices. rewrite !elem_of_cons.
      intros [?|[?|Hnil]]; [done | done | by apply elem_of_nil in Hnil].
    - rewrite (Hblank _ Huser). conj_false.
    - rewrite (Hblank _ Hpw). conj_false. }
  unfold register. destruct m; simpl; [done|]. by rewrite Hinvalid.
Qed.

End sequences.

Lemma register_twice_rejected_witness :
  farmers
    (out_state
       (register (W := WerkzeugModel.instance)
          (out_state
             (register (W := WerkzeugModel.instance) Examples.two_accounts None
                POST (Examples.register_form "chen" "millet" "buyer") "q1"))
          None POST (Examples.register_form "chen" "maize" "farmer") "q2"))
  = farmers
      (out_state
         (register (W := WerkzeugModel.instance) Examples.two_accounts None
            POST (Examples.register_form "chen" "millet" "buyer") "q1")).
Proof.
  rewrite (register_twice_rejected (W := WerkzeugModel.instance)
             Examples.two_accounts None None
             (Examples.register_form "chen" "millet" "buyer")
             (Examples.register_form "chen" "maize" "farmer") "q1" "q2"
             eq_refl eq_refl eq_refl).
  reflexivity.
Defined.

Lemma sell_rice_then_profile_witness :
  current_user Examples.shop (Some 1) = Some Examples.ravi ∧
  ∃ product,
    out_response
      (profile
         (out_state
            (sell_rice (W := WerkzeugModel.instance)
                (S := StorageModel.instance) Examples.shop (Some 1)
               POST Examples.basmati_form))
         (Some 1))
    = render_template "profile.html" (ctx_products [Examples.basmati; product]).
Proof.
  split; [reflexivity|].
  destruct (sell_rice_then_profile (W := WerkzeugModel.instance)
              (S := StorageModel.instance) Examples.shop
              (Some 1) Examples.basmati_form Examples.ravi
              eq_refl eq_refl eq_refl) as (product & _ & Hprofile).
  exists product. exact (f_equal out_response Hprofile).
Defined.

Lemma register_rejects_invalid_witness :
  out_response
    (register (W := WerkzeugModel.instance) Examples.two_accounts None POST
       (RegisterForm.mk true (Some "chen") (Some "millet") (Some "maize")
          (Some "buyer")) "q1")
  = render_template "register.html"
      (ctx_register_form
         (RegisterForm.mk true (Some "chen") (Some "millet") (Some "maize")
            (Some "buyer"))) ∧
  farmers
    (out_state
       (register (W := WerkzeugModel.instance) Examples.two_accounts None POST
          (Examples.register_form Examples.nbsp "millet" "buyer") "q1"))
  = farmers Examples.two_accounts.
Proof.
  split.
  - rewrite (register_rejects_invalid (W := WerkzeugModel.instance));
      [reflexivity|]. left. discriminate.
  - rewrite (register_rejects_invalid (W := WerkzeugModel.instance));
      [reflexivity|]. right. right. left.
    intros u [= <-]. reflexivity.
Defined.
